(** * Mergin Maps DB Sync: the synchronisation state machine of [dbsync.py]

    The Python functions of [dbsync.py] are embedded as programs of a small
    interaction monad [Prog]: every call that leaves the process (the file
    system, the geodiff executable, the PostgreSQL connection, the Mergin
    Maps client) is a [Call] node, [print] is an output node, and Python
    exceptions are the error component.  A program is run against an
    environment ([Env]) that answers the calls; the run returns the outcome,
    the final state of the environment, the trace of calls and answers and
    the printed lines. *)

From Stdlib Require Import ZArith Lia Ascii String.
From stdpp Require Import base strings list gmap pretty.

Local Open Scope string_scope.
Local Open Scope Z_scope.

(** ** Exceptions *)

(** Exception classes raised by the libraries the program calls. *)
Inductive ExtKind : Type :=
| ClientError | LoginError | PsycopgError | ConfigError
| KeyError | IndexError | OSError.

(** [DbSyncError] is the program's own exception class; everything else
    comes from a collaborator. *)
Inductive Exn : Type :=
| DbSyncError (msg : string)
| Foreign (k : ExtKind) (msg : string).

#[global] Instance ExtKind_eq_dec : EqDecision ExtKind.
Proof. solve_decision. Defined.
#[global] Instance Exn_eq_dec : EqDecision Exn.
Proof. solve_decision. Defined.

(** ** Values exchanged with the collaborators *)

(** [subprocess.CompletedProcess]: the exit status and the text captured
    on stderr ([res.stderr.decode()]). *)
Record CompletedProcess := { returncode : Z; stderr : string }.

(** An entry of the JSON lists geodiff writes: a row of [geodiff_summary]
    ([table], [insert], [update], [delete]) or a row of [geodiff]
    ([table], [type], [changes]; the changes are kept as their text). *)
Inductive JsonEntry : Type :=
| SummaryEntry (table : string) (insert update delete : Z)
| DetailEntry (table : string) (type : string) (changes : string).

(** A JSON document as [json.load] returns it: a dict of lists. *)
Definition JsonDoc : Type := list (string * list JsonEntry).

(** File details of the Mergin client; the program reads [path] only. *)
Record FileInfo := { path : string }.

(** [{ 'added': [...], 'removed': [...], 'updated': [...] }] *)
Record ChangesDict := {
  added : list FileInfo;
  updated : list FileInfo;
  removed : list FileInfo }.

(** [mp.metadata] *)
Record Metadata := { md_name : string; md_version : string }.

(** [mc.project_info(...)] *)
Record ServerInfo := { si_version : string; si_files : list FileInfo }.

(** Handles of the library objects. *)
Record Connection := { conn_dsn : string }.
Record MerginClientObj := { mc_url : string; mc_login : string }.
Record MerginProjectObj := { mp_dir : string; mp_geodiff : bool }.

(** The text of a schema comment.  The program writes [json.dumps] of a
    flat dict of strings and reads it back with [json.loads]; a comment
    that does not decode to such a dict is [OtherText]. *)
Inductive PgText : Type :=
| JsonObjectText (kv : list (string * string))
| OtherText (s : string).

(** ** Configuration ([config], from the missing [config.py]) *)

Record ConnCfg := {
  driver : string;
  conn_info : string;
  modified : string;
  base : string;
  mergin_project : string;
  sync_file : string }.

Record MerginCfg := {
  url : string;
  username : string;
  password : option string }.

Record Config := {
  mergin : MerginCfg;
  working_dir : string;
  geodiff_exe : string;
  connections : list ConnCfg }.

(** ** Calls to the outside *)

Inductive Call : Type -> Type :=
(* os, shutil, tempfile, random, json, getpass, subprocess *)
| OsPathExists (p : string) : Call bool
| OsRemove (p : string) : Call unit
| OsPathGetsize (p : string) : Call Z
| ShutilCopy (src dst : string) : Call unit
| ShutilRmtree (p : string) : Call unit
| TempfileGettempdir : Call string
| RandomAsciiLetters8 : Call string
| JsonLoadFile (p : string) : Call JsonDoc
| Getpass (prompt : string) : Call string
| SubprocessRun (cmd : list string) : Call CompletedProcess
(* psycopg2 *)
| PsycopgConnect (dsn : string) : Call Connection
| SqlSchemaExists (conn : Connection) (schema : string) : Call bool
| SqlCommentOnSchema (conn : Connection) (schema : string) (text : PgText) : Call unit
| SqlObjDescription (conn : Connection) (schema : string) : Call (option PgText)
(* mergin client *)
| MerginClientNew (url login password plugin_version : string) : Call MerginClientObj
| McGetProjectsByNames (mc : MerginClientObj) (names : list string) : Call (list (string * string))
| McPullProject (mc : MerginClientObj) (dir : string) : Call unit
| McPushProject (mc : MerginClientObj) (dir : string) : Call unit
| McDownloadProject (mc : MerginClientObj) (project dir : string) (version : option string) : Call unit
| McProjectStatus (mc : MerginClientObj) (dir : string) : Call (ChangesDict * ChangesDict)
| McProjectInfo (mc : MerginClientObj) (project_path since : string) : Call ServerInfo
| MerginProjectNew (dir : string) : Call MerginProjectObj
| MpMetadata (mp : MerginProjectObj) : Call Metadata
| MpGetPushChanges (mp : MerginProjectObj) : Call ChangesDict
| MpGetPullChanges (mp : MerginProjectObj) (server_files : list FileInfo) : Call ChangesDict
(* config.py *)
| ValidateConfig (cfg : Config) : Call unit.

(** The answer to a call: a value, or an exception of a library class. *)
Inductive Resp (X : Type) : Type :=
| Returned (x : X)
| Thrown (k : ExtKind) (msg : string).
Arguments Returned {X} x.
Arguments Thrown {X} k msg.

(** ** The interaction monad *)

Inductive Prog (A : Type) : Type :=
| Ret (a : A)
| Raise (e : Exn)
| Print (line : option string) (k : Prog A)
| Do {X : Type} (c : Call X) (k : Resp X -> Prog A).
Arguments Ret {A} a.
Arguments Raise {A} e.
Arguments Print {A} line k.
Arguments Do {A X} c k.

Fixpoint bind {A B : Type} (p : Prog A) (f : A -> Prog B) : Prog B :=
  match p with
  | Ret a => f a
  | Raise e => Raise e
  | Print s k => Print s (bind k f)
  | Do c k => Do c (fun r => bind (k r) f)
  end.

Declare Scope prog_scope.
Delimit Scope prog_scope with prog.
Bind Scope prog_scope with Prog.
Notation "x <- p ;; k" := (bind p (fun x => k))
  (at level 100, p at next level, k at level 200, right associativity) : prog_scope.
Notation "p ;; k" := (bind p (fun _ => k)) : prog_scope.
Local Open Scope prog_scope.

(** A call whose exception, if any, propagates. *)
Definition call {X : Type} (c : Call X) : Prog X :=
  Do c (fun r => match r with
                 | Returned x => Ret x
                 | Thrown k msg => Raise (Foreign k msg)
                 end).

(** [print(s)], and [if b: print(s)]: the line is put out when there is
    one. *)
Definition print (s : string) : Prog unit := Print (Some s) (Ret tt).
Definition print_when (b : bool) (s : string) : Prog unit :=
  Print (if b then Some s else None) (Ret tt).

(** [try: p  except <class> as e: h e]; [h] returns [None] for the
    exceptions the clause does not match. *)
Fixpoint try_except {A : Type} (p : Prog A) (h : Exn -> option (Prog A)) : Prog A :=
  match p with
  | Ret a => Ret a
  | Raise e => match h e with Some q => q | None => Raise e end
  | Print s k => Print s (try_except k h)
  | Do c k => Do c (fun r => try_except (k r) h)
  end.

Definition except_ClientError {A} (h : string -> Prog A) (e : Exn) : option (Prog A) :=
  match e with Foreign ClientError msg => Some (h msg) | _ => None end.
Definition except_LoginError {A} (h : string -> Prog A) (e : Exn) : option (Prog A) :=
  match e with Foreign LoginError msg => Some (h msg) | _ => None end.
Definition except_PsycopgError {A} (h : string -> Prog A) (e : Exn) : option (Prog A) :=
  match e with Foreign PsycopgError msg => Some (h msg) | _ => None end.
Definition except_ConfigError {A} (h : string -> Prog A) (e : Exn) : option (Prog A) :=
  match e with Foreign ConfigError msg => Some (h msg) | _ => None end.
Definition except_DbSyncError {A} (h : string -> Prog A) (e : Exn) : option (Prog A) :=
  match e with DbSyncError msg => Some (h msg) | _ => None end.

(** ** Running a program *)

Record Env := {
  env_state : Type;
  env_handle : forall X : Type, Call X -> env_state -> Resp X * env_state }.

(** An event of the trace: a call and its answer. *)
Inductive Event : Type :=
| EvCall {X : Type} (c : Call X) (r : Resp X).

Inductive Outcome (A : Type) : Type :=
| Done (a : A)
| Failed (e : Exn).
Arguments Done {A} a.
Arguments Failed {A} e.

(** A run: how the program ended, the state the environment is left in,
    the calls made with their answers, and the lines printed. *)
Record Run (S A : Type) := MkRun {
  outcome : Outcome A;
  final : S;
  trace : list Event;
  output : list string }.
Arguments MkRun {S A} _ _ _ _.
Arguments outcome {S A} _.
Arguments final {S A} _.
Arguments trace {S A} _.
Arguments output {S A} _.

Definition logged {S A} (ev : Event) (r : Run S A) : Run S A :=
  MkRun (outcome r) (final r) (ev :: trace r) (output r).
Definition printed {S A} (line : option string) (r : Run S A) : Run S A :=
  MkRun (outcome r) (final r) (trace r)
        (match line with Some msg => msg :: output r | None => output r end).

Fixpoint run (E : Env) {A : Type} (p : Prog A) (s : env_state E) : Run (env_state E) A :=
  match p with
  | Ret a => MkRun (Done a) s [] []
  | Raise e => MkRun (Failed e) s [] []
  | Print msg k => printed msg (run E k s)
  | Do c k =>
      let rs := env_handle E _ c s in
      logged (EvCall c (fst rs)) (run E (k (fst rs)) (snd rs))
  end.

(** ** Python library functions the program uses on its own values *)

Definition nl : string := String (Ascii.ascii_of_nat 10) EmptyString.

(** [s.split("/")] *)
Fixpoint split_slash_aux (s : string) (cur : string) : list string :=
  match s with
  | EmptyString => [String.rev cur]
  | String c s' =>
      if Ascii.eqb c "/"%char
      then String.rev cur :: split_slash_aux s' EmptyString
      else split_slash_aux s' (String c cur)
  end.
Definition split_slash (s : string) : list string := split_slash_aux s EmptyString.

(** [l[i]] on a list *)
Definition list_index {A} (l : list A) (i : nat) : Prog A :=
  match l !! i with
  | Some x => Ret x
  | None => Raise (Foreign IndexError "list index out of range")
  end.

Definition startswith_slash (s : string) : bool :=
  match s with String c _ => Ascii.eqb c "/"%char | EmptyString => false end.

Fixpoint endswith_slash (s : string) : bool :=
  match s with
  | EmptyString => false
  | String c EmptyString => Ascii.eqb c "/"%char
  | String _ s' => endswith_slash s'
  end.

(** [os.path.join(a, b)] of [posixpath] *)
Definition os_path_join (a b : string) : string :=
  if startswith_slash b then b
  else if bool_decide (a = "") || endswith_slash a then a +:+ b
  else a +:+ "/" +:+ b.

(** [d[k]] and [k in d] on a dict *)
Fixpoint dict_lookup {V} (d : list (string * V)) (k : string) : option V :=
  match d with
  | [] => None
  | (k', v) :: d' => if bool_decide (k' = k) then Some v else dict_lookup d' k
  end.
Definition dict_get {V} (d : list (string * V)) (k : string) : Prog V :=
  match dict_lookup d k with
  | Some v => Ret v
  | None => Raise (Foreign KeyError k)
  end.
Definition dict_has {V} (d : list (string * V)) (k : string) : bool :=
  bool_decide (is_Some (dict_lookup d k)).

(** Python truth value of a string and of a list *)
Definition str_truthy (s : string) : bool := negb (bool_decide (s = "")).
Definition list_truthy {A} (l : list A) : bool :=
  match l with [] => false | _ => true end.
Definition len {A} (l : list A) : Z := Z.of_nat (length l).

(** [status['added'] or status['updated'] or status['removed']] *)
Definition has_changes (d : ChangesDict) : bool :=
  list_truthy (added d) || list_truthy (updated d) || list_truthy (removed d).

Fixpoint for_each {A} (l : list A) (body : A -> Prog unit) : Prog unit :=
  match l with
  | [] => Ret tt
  | x :: l' => body x ;; for_each l' body
  end.

(** Text renderings used in messages only: [str] of a list of strings,
    [str] of a changes dict, [json.dumps(..., indent=2)], and the
    [{:20} {:4} {:4} {:4}] format.  They follow Python's output in the
    plain cases (no quoting of special characters). *)
Definition join_with (sep : string) (l : list string) : string :=
  match l with
  | [] => ""
  | x :: l' => foldl (fun acc y => acc +:+ sep +:+ y) x l'
  end.
Definition str_list (l : list string) : string :=
  "[" +:+ join_with ", " (map (fun s => "'" +:+ s +:+ "'") l) +:+ "]".
Definition str_files (l : list FileInfo) : string :=
  "[" +:+ join_with ", " (map (fun f => "{'path': '" +:+ path f +:+ "'}") l) +:+ "]".
Definition str_changes (d : ChangesDict) : string :=
  "{'added': " +:+ str_files (added d) +:+ ", 'updated': " +:+ str_files (updated d)
  +:+ ", 'removed': " +:+ str_files (removed d) +:+ "}".
Definition json_dumps_entry (e : JsonEntry) : string :=
  match e with
  | SummaryEntry t i u d =>
      "{table: " +:+ t +:+ ", insert: " +:+ pretty i +:+ ", update: " +:+ pretty u
      +:+ ", delete: " +:+ pretty d +:+ "}"
  | DetailEntry t ty ch => "{table: " +:+ t +:+ ", type: " +:+ ty +:+ ", changes: " +:+ ch +:+ "}"
  end.
Definition json_dumps_indent2 (l : list JsonEntry) : string :=
  "[" +:+ join_with ("," +:+ nl) (map json_dumps_entry l) +:+ "]".
Fixpoint spaces (n : nat) : string :=
  match n with O => "" | S n' => " " +:+ spaces n' end.
Definition ljust (w : nat) (s : string) : string := s +:+ spaces (w - String.length s).
Definition rjust (w : nat) (s : string) : string := spaces (w - String.length s) +:+ s.

(** [json.dumps] of a flat dict and [json.loads] of a comment text:
    the latter is [None] where Python takes the [except] branch. *)
Definition json_dumps (kv : list (string * string)) : PgText := JsonObjectText kv.
Definition json_loads (t : PgText) : option (list (string * string)) :=
  match t with JsonObjectText kv => Some kv | OtherText _ => None end.
Definition pgtext_truthy (t : PgText) : bool :=
  match t with JsonObjectText _ => true | OtherText s => str_truthy s end.

(** ** The functions of [dbsync.py] *)

Section DbSync.

(** The module-level [config] object and [__version__]. *)
Variable config : Config.
Variable __version__ : string.

Definition _check_has_working_dir (work_path : string) : Prog unit :=
  e <- call (OsPathExists work_path) ;;
  if negb e
  then Raise (DbSyncError ("The project working directory does not exist: " +:+ work_path))
  else
    m <- call (OsPathExists (os_path_join work_path ".mergin")) ;;
    if negb m
    then Raise (DbSyncError
           ("The project working directory does not seem to contain Mergin Maps project: "
            +:+ work_path))
    else Ret tt.

Definition _check_has_sync_file (file_path : string) : Prog unit :=
  e <- call (OsPathExists file_path) ;;
  if negb e
  then Raise (DbSyncError ("The output GPKG file does not exist: " +:+ file_path))
  else Ret tt.

Definition _check_schema_exists (conn : Connection) (schema_name : string) : Prog bool :=
  call (SqlSchemaExists conn schema_name).

(** [config.mergin.password] is assigned when it is [None]; the password in
    force afterwards is returned. *)
Definition _check_has_password : Prog string :=
  match password (mergin config) with
  | None => call (Getpass ("Mergin Maps password for '" +:+ username (mergin config) +:+ "': "))
  | Some pw => Ret pw
  end.

Definition _run_geodiff (cmd : list string) : Prog unit :=
  res <- call (SubprocessRun cmd) ;;
  let geodiff_stderr := stderr res in
  print_when (str_truthy geodiff_stderr) ("GEODIFF: " +:+ geodiff_stderr) ;;
  if bool_decide (returncode res ≠ 0)
  then Raise (DbSyncError ("geodiff failed!" +:+ nl +:+ str_list cmd))
  else Ret tt.

Definition _geodiff_create_changeset (driver conn_info base modified changeset : string)
  : Prog unit :=
  _run_geodiff [geodiff_exe config; "diff"; "--driver"; driver; conn_info;
                base; modified; changeset].

Definition _geodiff_apply_changeset (driver conn_info base changeset : string) : Prog unit :=
  _run_geodiff [geodiff_exe config; "apply"; "--driver"; driver; conn_info; base; changeset].

Definition _geodiff_rebase (driver conn_info base our base2their conflicts : string)
  : Prog unit :=
  _run_geodiff [geodiff_exe config; "rebase-db"; "--driver"; driver; conn_info;
                base; our; base2their; conflicts].

Definition _geodiff_list_changes_details (changeset : string) : Prog (list JsonEntry) :=
  tmp_dir <- call TempfileGettempdir ;;
  let tmp_output := os_path_join tmp_dir "dbsync-changeset-details" in
  e <- call (OsPathExists tmp_output) ;;
  (if e then call (OsRemove tmp_output) else Ret tt);;
  _run_geodiff [geodiff_exe config; "as-json"; changeset; tmp_output];;
  out <- call (JsonLoadFile tmp_output) ;;
  call (OsRemove tmp_output);;
  dict_get out "geodiff".

Definition _geodiff_list_changes_summary (changeset : string) : Prog (list JsonEntry) :=
  tmp_dir <- call TempfileGettempdir ;;
  let tmp_output := os_path_join tmp_dir "dbsync-changeset-summary" in
  e <- call (OsPathExists tmp_output) ;;
  (if e then call (OsRemove tmp_output) else Ret tt);;
  _run_geodiff [geodiff_exe config; "as-summary"; changeset; tmp_output];;
  out <- call (JsonLoadFile tmp_output) ;;
  call (OsRemove tmp_output);;
  dict_get out "geodiff_summary".

Definition _geodiff_make_copy
    (src_driver src_conn_info src dst_driver dst_conn_info dst : string) : Prog unit :=
  _run_geodiff [geodiff_exe config; "copy"; "--driver-1"; src_driver; src_conn_info;
                "--driver-2"; dst_driver; dst_conn_info; src; dst].

Definition _geodiff_create_changeset_dr
    (src_driver src_conn_info src dst_driver dst_conn_info dst changeset : string)
  : Prog unit :=
  _run_geodiff [geodiff_exe config; "diff"; "--driver-1"; src_driver; src_conn_info;
                "--driver-2"; dst_driver; dst_conn_info; src; dst; changeset].

Definition _compare_datasets
    (src_driver src_conn_info src dst_driver dst_conn_info dst : string)
    (summary_only : bool) : Prog (list JsonEntry) :=
  tmp_dir <- call TempfileGettempdir ;;
  letters <- call RandomAsciiLetters8 ;;
  let tmp_changeset := os_path_join tmp_dir letters in
  _geodiff_create_changeset_dr src_driver src_conn_info src
                               dst_driver dst_conn_info dst tmp_changeset;;
  if summary_only
  then _geodiff_list_changes_summary tmp_changeset
  else _geodiff_list_changes_details tmp_changeset.

(** [item['table'], item['insert'], item['update'], item['delete']] *)
Definition summary_row (item : JsonEntry) : Prog string :=
  match item with
  | SummaryEntry t i u d =>
      Ret (ljust 20 t +:+ " " +:+ rjust 4 (pretty i) +:+ " " +:+ rjust 4 (pretty u)
           +:+ " " +:+ rjust 4 (pretty d))
  | DetailEntry _ _ _ => Raise (Foreign KeyError "insert")
  end.

Definition _print_changes_summary (summary : list JsonEntry) (label : option string)
  : Prog unit :=
  print (match label with None => "Changes:" | Some l => l end);;
  for_each summary (fun item => row <- summary_row item ;; print row).

Definition _print_mergin_changes (diff_dict : ChangesDict) : Prog unit :=
  for_each (added diff_dict) (fun item => print ("  added:   " +:+ path item));;
  for_each (updated diff_dict) (fun item => print ("  updated: " +:+ path item));;
  for_each (removed diff_dict) (fun item => print ("  removed: " +:+ path item)).

Definition _get_project_version (work_path : string) : Prog string :=
  mp <- call (MerginProjectNew work_path) ;;
  md <- call (MpMetadata mp) ;;
  Ret (md_version md).

Definition _set_db_project_comment
    (conn : Connection) (schema project_name version : string) (error : option string)
  : Prog unit :=
  let comment := [("name", project_name); ("version", version)] in
  let comment :=
    match error with
    | Some err => if str_truthy err then (comment ++ [("error", err)])%list else comment
    | None => comment
    end in
  call (SqlCommentOnSchema conn schema (json_dumps comment)).

Definition _get_db_project_comment (conn : Connection) (schema : string)
  : Prog (option (list (string * string))) :=
  res <- call (SqlObjDescription conn schema) ;;
  match res with
  | Some t => if pgtext_truthy t then Ret (json_loads t) else Ret None
  | None => Ret None
  end.

Definition create_mergin_client : Prog MerginClientObj :=
  pw <- _check_has_password ;;
  try_except
    (call (MerginClientNew (url (mergin config)) (username (mergin config)) pw
                           ("DB-sync/" +:+ __version__)))
    (fun e =>
       match e with
       | Foreign LoginError msg =>
           Some (Raise (DbSyncError
             ("Unable to log in to Mergin Maps: " +:+ msg +:+ " " +:+ nl +:+ nl
              +:+ "Have you specified correct credentials in configuration file?")))
       | Foreign ClientError msg =>
           Some (Raise (DbSyncError ("Mergin Maps client error: " +:+ msg)))
       | _ => None
       end).

(** [conn_cfg.mergin_project.split("/")[1]] *)
Definition project_short_name (conn_cfg : ConnCfg) : Prog string :=
  list_index (split_slash (mergin_project conn_cfg)) 1.

(** [projects = mc.get_projects_by_names([project_path]);
     server_version = projects[project_path]["version"]] under
    [except ClientError] *)
Definition fetch_server_version (mc : MerginClientObj) (project_path : string) : Prog string :=
  try_except
    (projects <- call (McGetProjectsByNames mc [project_path]) ;;
     dict_get projects project_path)
    (except_ClientError (fun e => Raise (DbSyncError ("Mergin Maps client error: " +:+ e)))).

Definition pull (conn_cfg : ConnCfg) (mc : MerginClientObj) : Prog unit :=
  print ("Processing Mergin Maps project '" +:+ mergin_project conn_cfg +:+ "'") ;;
  project_name <- project_short_name conn_cfg ;;
  let work_dir := os_path_join (working_dir config) project_name in
  let gpkg_full_path := os_path_join work_dir (sync_file conn_cfg) in
  _check_has_working_dir work_dir ;;
  _check_has_sync_file gpkg_full_path ;;
  mp <- call (MerginProjectNew work_dir) ;;
  if negb (mp_geodiff mp)
  then Raise (DbSyncError "Mergin Maps client installation problem: geodiff not available")
  else
  md <- call (MpMetadata mp) ;;
  let project_path := md_name md in
  md' <- call (MpMetadata mp) ;;
  let local_version := md_version md' in
  server_version <- fetch_server_version mc project_path ;;
  status_push <- call (MpGetPushChanges mp) ;;
  if has_changes status_push
  then Raise (DbSyncError
         ("There are pending changes in the local directory - that should never happen! "
          +:+ str_changes status_push))
  else
  if bool_decide (server_version = local_version)
  then print "No changes on Mergin Maps."
  else
  let gpkg_basefile := os_path_join (os_path_join work_dir ".mergin") (sync_file conn_cfg) in
  let gpkg_basefile_old := gpkg_basefile +:+ "-old" in
  call (ShutilCopy gpkg_basefile gpkg_basefile_old) ;;
  tmp_dir <- call TempfileGettempdir ;;
  let tmp_base2our := os_path_join tmp_dir (project_name +:+ "-dbsync-pull-base2our") in
  let tmp_base2their := os_path_join tmp_dir (project_name +:+ "-dbsync-pull-base2their") in
  _geodiff_create_changeset (driver conn_cfg) (conn_info conn_cfg)
                            (base conn_cfg) (modified conn_cfg) tmp_base2our ;;
  sz <- call (OsPathGetsize tmp_base2our) ;;
  needs_rebase <-
    (if bool_decide (sz ≠ 0)
     then summary <- _geodiff_list_changes_summary tmp_base2our ;;
          _print_changes_summary summary (Some "DB Changes:") ;;
          Ret true
     else Ret false) ;;
  try_except (call (McPullProject mc work_dir))
    (except_ClientError
       (fun e => Raise (DbSyncError ("Mergin Maps client error on pull: " +:+ e)))) ;;
  v <- _get_project_version work_dir ;;
  print ("Pulled new version from Mergin Maps: " +:+ v) ;;
  _geodiff_create_changeset "sqlite" "" gpkg_basefile_old gpkg_basefile tmp_base2their ;;
  summary <- _geodiff_list_changes_summary tmp_base2their ;;
  _print_changes_summary summary (Some "Mergin Maps Changes:") ;;
  (if negb needs_rebase
   then
     print "Applying new version [no rebase]" ;;
     _geodiff_apply_changeset (driver conn_cfg) (conn_info conn_cfg)
                              (base conn_cfg) tmp_base2their ;;
     _geodiff_apply_changeset (driver conn_cfg) (conn_info conn_cfg)
                              (modified conn_cfg) tmp_base2their
   else
     print "Applying new version [WITH rebase]" ;;
     let tmp_conflicts := os_path_join tmp_dir (project_name +:+ "-dbsync-pull-conflicts") in
     _geodiff_rebase (driver conn_cfg) (conn_info conn_cfg) (base conn_cfg)
                     (modified conn_cfg) tmp_base2their tmp_conflicts ;;
     _geodiff_apply_changeset (driver conn_cfg) (conn_info conn_cfg)
                              (base conn_cfg) tmp_base2their) ;;
  call (OsRemove gpkg_basefile_old) ;;
  conn <- call (PsycopgConnect (conn_info conn_cfg)) ;;
  version <- _get_project_version work_dir ;;
  _set_db_project_comment conn (base conn_cfg) (mergin_project conn_cfg) version None.

Definition status (conn_cfg : ConnCfg) (mc : MerginClientObj) : Prog unit :=
  print ("Processing Mergin Maps project '" +:+ mergin_project conn_cfg +:+ "'") ;;
  project_name <- project_short_name conn_cfg ;;
  let work_dir := os_path_join (working_dir config) project_name in
  let gpkg_full_path := os_path_join work_dir (sync_file conn_cfg) in
  _check_has_working_dir work_dir ;;
  _check_has_sync_file gpkg_full_path ;;
  mp <- call (MerginProjectNew work_dir) ;;
  if negb (mp_geodiff mp)
  then Raise (DbSyncError "Mergin Maps client installation problem: geodiff not available")
  else
  status_push <- call (MpGetPushChanges mp) ;;
  if has_changes status_push
  then Raise (DbSyncError
         ("Pending changes in the local directory - that should never happen! "
          +:+ str_changes status_push))
  else
  md <- call (MpMetadata mp) ;;
  let project_path := md_name md in
  md' <- call (MpMetadata mp) ;;
  let local_version := md_version md' in
  print ("Working directory " +:+ work_dir) ;;
  print ("Mergin Maps project " +:+ project_path +:+ " at local version " +:+ local_version) ;;
  print "" ;;
  print "Checking status..." ;;
  server_info <-
    try_except (call (McProjectInfo mc project_path local_version))
      (except_ClientError
         (fun e => Raise (DbSyncError ("Mergin Maps client error: " +:+ e)))) ;;
  print ("Server is at version " +:+ si_version server_info) ;;
  status_pull <- call (MpGetPullChanges mp (si_files server_info)) ;;
  (if has_changes status_pull
   then print "There are pending changes on server:" ;;
        _print_mergin_changes status_pull
   else print "No pending changes on server.") ;;
  print "" ;;
  conn <- call (PsycopgConnect (conn_info conn_cfg)) ;;
  be <- _check_schema_exists conn (base conn_cfg) ;;
  if negb be
  then Raise (DbSyncError ("The base schema does not exist: " +:+ base conn_cfg))
  else
  me <- _check_schema_exists conn (modified conn_cfg) ;;
  if negb me
  then Raise (DbSyncError ("The 'modified' schema does not exist: " +:+ modified conn_cfg))
  else
  tmp_dir <- call TempfileGettempdir ;;
  let tmp_changeset_file :=
    os_path_join tmp_dir (project_name +:+ "-dbsync-status-base2our") in
  e <- call (OsPathExists tmp_changeset_file) ;;
  (if e then call (OsRemove tmp_changeset_file) else Ret tt) ;;
  _geodiff_create_changeset (driver conn_cfg) (conn_info conn_cfg)
                            (base conn_cfg) (modified conn_cfg) tmp_changeset_file ;;
  sz <- call (OsPathGetsize tmp_changeset_file) ;;
  if bool_decide (sz = 0)
  then print "No changes in the database."
  else
    print "There are changes in DB" ;;
    summary <- _geodiff_list_changes_summary tmp_changeset_file ;;
    _print_changes_summary summary None.

Definition push (conn_cfg : ConnCfg) (mc : MerginClientObj) : Prog unit :=
  print ("Processing Mergin Maps project '" +:+ mergin_project conn_cfg +:+ "'") ;;
  project_name <- project_short_name conn_cfg ;;
  tmp_dir <- call TempfileGettempdir ;;
  let tmp_changeset_file :=
    os_path_join tmp_dir (project_name +:+ "-dbsync-push-base2our") in
  e <- call (OsPathExists tmp_changeset_file) ;;
  (if e then call (OsRemove tmp_changeset_file) else Ret tt) ;;
  let work_dir := os_path_join (working_dir config) project_name in
  let gpkg_full_path := os_path_join work_dir (sync_file conn_cfg) in
  _check_has_working_dir work_dir ;;
  _check_has_sync_file gpkg_full_path ;;
  mp <- call (MerginProjectNew work_dir) ;;
  if negb (mp_geodiff mp)
  then Raise (DbSyncError "Mergin Maps client installation problem: geodiff not available")
  else
  md <- call (MpMetadata mp) ;;
  let project_path := md_name md in
  md' <- call (MpMetadata mp) ;;
  let local_version := md_version md' in
  server_version <- fetch_server_version mc project_path ;;
  status_push <- call (MpGetPushChanges mp) ;;
  if has_changes status_push
  then Raise (DbSyncError
         ("There are pending changes in the local directory - that should never happen! "
          +:+ str_changes status_push))
  else
  if bool_decide (server_version ≠ local_version)
  then Raise (DbSyncError "There are pending changes on server - need to pull them first.")
  else
  conn <- call (PsycopgConnect (conn_info conn_cfg)) ;;
  be <- _check_schema_exists conn (base conn_cfg) ;;
  if negb be
  then Raise (DbSyncError ("The base schema does not exist: " +:+ base conn_cfg))
  else
  me <- _check_schema_exists conn (modified conn_cfg) ;;
  if negb me
  then Raise (DbSyncError ("The 'modified' schema does not exist: " +:+ modified conn_cfg))
  else
  _geodiff_create_changeset (driver conn_cfg) (conn_info conn_cfg)
                            (base conn_cfg) (modified conn_cfg) tmp_changeset_file ;;
  sz <- call (OsPathGetsize tmp_changeset_file) ;;
  if bool_decide (sz = 0)
  then print "No changes in the database."
  else
  summary <- _geodiff_list_changes_summary tmp_changeset_file ;;
  _print_changes_summary summary None ;;
  print "Writing DB changes to working dir..." ;;
  _geodiff_apply_changeset "sqlite" "" gpkg_full_path tmp_changeset_file ;;
  try_except (call (McPushProject mc work_dir))
    (except_ClientError
       (fun e => Raise (DbSyncError ("Mergin Maps client error on push: " +:+ e)))) ;;
  version <- _get_project_version work_dir ;;
  print ("Pushed new version to Mergin Maps: " +:+ version) ;;
  print "Updating DB base schema..." ;;
  _geodiff_apply_changeset (driver conn_cfg) (conn_info conn_cfg)
                           (base conn_cfg) tmp_changeset_file ;;
  _set_db_project_comment conn (base conn_cfg) (mergin_project conn_cfg) version None.

(** The failure message written into the schema comment by [init]. *)
Definition init_error_comment : string :=
  "Initialization of db-sync failed due to a bug in geodiff".
Definition init_error_message : string :=
  "Initialization of db-sync failed due to a bug in geodiff." +:+ nl
  +:+ " Please report this problem to mergin-db-sync developers".

(** [db_proj_info['version']], where [db_proj_info] is bound only when
    both schemas exist. *)
Definition db_proj_info_version (db_proj_info : option (list (string * string)))
  : Prog string :=
  match db_proj_info with
  | Some info => dict_get info "version"
  | None => Raise (Foreign KeyError "version")
  end.

(** The first part of [init]: the branch on the existing schemas that
    brings the working directory to the right version.  Returns
    [db_proj_info]. *)
Definition init_working_dir (conn_cfg : ConnCfg) (mc : MerginClientObj) (conn : Connection)
    (base_schema_exists modified_schema_exists : bool) (work_dir gpkg_full_path : string)
  : Prog (option (list (string * string))) :=
  if modified_schema_exists && base_schema_exists
  then
    print "Modified and base schemas already exist" ;;
    db_proj_info <- _get_db_project_comment conn (base conn_cfg) ;;
    match db_proj_info with
    | None | Some [] =>
        Raise (DbSyncError "Base schema exists but missing which project it belongs to")
    | Some info =>
        (if dict_has info "error"
         then
           changes_gpkg_base <-
             _compare_datasets "sqlite" "" gpkg_full_path (driver conn_cfg)
                               (conn_info conn_cfg) (base conn_cfg) false ;;
           let changes := json_dumps_indent2 changes_gpkg_base in
           print ("Changeset from failed init:" +:+ nl +:+ " " +:+ changes) ;;
           err <- dict_get info "error" ;;
           Raise (DbSyncError err)
         else Ret tt) ;;
        e <- call (OsPathExists work_dir) ;;
        (if negb e
         then
           v <- dict_get info "version" ;;
           print ("Downloading version " +:+ v +:+ " of Mergin Maps project "
                  +:+ mergin_project conn_cfg +:+ " to " +:+ work_dir) ;;
           call (McDownloadProject mc (mergin_project conn_cfg) work_dir (Some v))
         else
           local_version <- _get_project_version work_dir ;;
           print ("Working directory " +:+ work_dir
                  +:+ " already exists, with project version " +:+ local_version) ;;
           v <- dict_get info "version" ;;
           if bool_decide (local_version ≠ v)
           then
             print ("Removing local working directory " +:+ work_dir) ;;
             call (ShutilRmtree work_dir) ;;
             print ("Downloading version " +:+ v +:+ " of Mergin Maps project "
                    +:+ mergin_project conn_cfg +:+ " to " +:+ work_dir) ;;
             call (McDownloadProject mc (mergin_project conn_cfg) work_dir (Some v))
           else Ret tt) ;;
        Ret (Some info)
    end
  else
    e <- call (OsPathExists work_dir) ;;
    (if negb e
     then
       print ("Downloading latest Mergin Maps project " +:+ mergin_project conn_cfg
              +:+ " to " +:+ work_dir) ;;
       call (McDownloadProject mc (mergin_project conn_cfg) work_dir None)
     else
       local_version <- _get_project_version work_dir ;;
       print ("Working directory " +:+ work_dir
              +:+ " already exists, with project version " +:+ local_version)) ;;
    Ret None.

(** The [from_gpkg] branch of [init], from the first copy on: both schemas
    are created from the GeoPackage, checked, and the comment is written. *)
Definition init_create_from_gpkg (conn_cfg : ConnCfg) (conn : Connection)
    (gpkg_full_path local_version : string) : Prog unit :=
  print "The base and modified schemas do not exist yet, going to initialize them ..." ;;
  try_except
    (_geodiff_make_copy "sqlite" "" gpkg_full_path
                        (driver conn_cfg) (conn_info conn_cfg) (modified conn_cfg) ;;
     _geodiff_make_copy (driver conn_cfg) (conn_info conn_cfg) (modified conn_cfg)
                        (driver conn_cfg) (conn_info conn_cfg) (base conn_cfg) ;;
     changes_gpkg_base <-
       _compare_datasets "sqlite" "" gpkg_full_path (driver conn_cfg)
                         (conn_info conn_cfg) (base conn_cfg) false ;;
     if bool_decide (len changes_gpkg_base ≠ 0)
     then
       let changes := json_dumps_indent2 changes_gpkg_base in
       print ("Changeset after internal copy (should be empty):" +:+ nl +:+ " " +:+ changes) ;;
       Raise (DbSyncError init_error_message)
     else Ret tt)
    (except_DbSyncError (fun msg =>
       _set_db_project_comment conn (base conn_cfg) (mergin_project conn_cfg) local_version
                               (Some init_error_comment) ;;
       Raise (DbSyncError msg))) ;;
  _set_db_project_comment conn (base conn_cfg) (mergin_project conn_cfg) local_version None.

Definition init_from_gpkg (conn_cfg : ConnCfg) (conn : Connection)
    (base_schema_exists modified_schema_exists : bool)
    (db_proj_info : option (list (string * string)))
    (gpkg_full_path local_version : string) : Prog unit :=
  e <- call (OsPathExists gpkg_full_path) ;;
  if negb e
  then Raise (DbSyncError ("The input GPKG file does not exist: " +:+ gpkg_full_path))
  else
  if modified_schema_exists && base_schema_exists
  then
    summary_modified <-
      _compare_datasets "sqlite" "" gpkg_full_path (driver conn_cfg)
                        (conn_info conn_cfg) (modified conn_cfg) true ;;
    summary_base <-
      _compare_datasets "sqlite" "" gpkg_full_path (driver conn_cfg)
                        (conn_info conn_cfg) (base conn_cfg) true ;;
    if bool_decide (len summary_base ≠ 0)
    then
      v <- db_proj_info_version db_proj_info ;;
      print ("Local project version at " +:+ local_version +:+ " and base schema at " +:+ v) ;;
      _print_changes_summary summary_base (Some "Base schema changes:") ;;
      Raise (DbSyncError
        "The db schemas already exist but 'base' schema is not synchronized with source GPKG")
    else if bool_decide (len summary_modified ≠ 0)
    then
      print ("Modified schema is not synchronised with source GPKG, "
             +:+ "please run pull/push commands to fix it") ;;
      _print_changes_summary summary_modified (Some "Pending Changes:")
    else
      print "The GPKG file, base and modified schemas are already initialized and in sync"
  else if modified_schema_exists
  then Raise (DbSyncError ("The 'modified' schema exists but the base schema is missing: "
                           +:+ base conn_cfg))
  else if base_schema_exists
  then Raise (DbSyncError ("The base schema exists but the modified schema is missing: "
                           +:+ modified conn_cfg))
  else init_create_from_gpkg conn_cfg conn gpkg_full_path local_version.

(** The [else] branch of [init] ([from_gpkg] false), from the first copy on. *)
Definition init_create_from_db (conn_cfg : ConnCfg) (mc : MerginClientObj) (conn : Connection)
    (work_dir gpkg_full_path local_version : string) : Prog unit :=
  print "The base schema and the output GPKG do not exist yet, going to initialize them ..." ;;
  try_except
    (_geodiff_make_copy (driver conn_cfg) (conn_info conn_cfg) (modified conn_cfg)
                        (driver conn_cfg) (conn_info conn_cfg) (base conn_cfg) ;;
     _geodiff_make_copy (driver conn_cfg) (conn_info conn_cfg) (modified conn_cfg)
                        "sqlite" "" gpkg_full_path ;;
     changes_gpkg_base <-
       _compare_datasets "sqlite" "" gpkg_full_path (driver conn_cfg)
                         (conn_info conn_cfg) (base conn_cfg) false ;;
     if bool_decide (len changes_gpkg_base ≠ 0)
     then
       let changes := json_dumps_indent2 changes_gpkg_base in
       print ("Changeset after internal copy (should be empty):" +:+ nl +:+ " " +:+ changes) ;;
       Raise (DbSyncError init_error_message)
     else Ret tt)
    (except_DbSyncError (fun msg =>
       _set_db_project_comment conn (base conn_cfg) (mergin_project conn_cfg) local_version
                               (Some init_error_comment) ;;
       Raise (DbSyncError msg))) ;;
  call (McPushProject mc work_dir) ;;
  version <- _get_project_version work_dir ;;
  _set_db_project_comment conn (base conn_cfg) (mergin_project conn_cfg) version None.

Definition init_from_db (conn_cfg : ConnCfg) (mc : MerginClientObj) (conn : Connection)
    (base_schema_exists modified_schema_exists : bool)
    (db_proj_info : option (list (string * string)))
    (work_dir gpkg_full_path local_version : string) : Prog unit :=
  if negb modified_schema_exists
  then Raise (DbSyncError ("The 'modified' schema does not exist: " +:+ modified conn_cfg))
  else
  e <- call (OsPathExists gpkg_full_path) ;;
  if e && base_schema_exists
  then
    summary_modified <-
      _compare_datasets (driver conn_cfg) (conn_info conn_cfg) (modified conn_cfg)
                        "sqlite" "" gpkg_full_path true ;;
    summary_base <-
      _compare_datasets (driver conn_cfg) (conn_info conn_cfg) (base conn_cfg)
                        "sqlite" "" gpkg_full_path true ;;
    if bool_decide (len summary_base ≠ 0)
    then
      lv <- _get_project_version work_dir ;;
      v <- db_proj_info_version db_proj_info ;;
      print ("Local project version at " +:+ lv +:+ " and base schema at " +:+ v) ;;
      _print_changes_summary summary_base (Some "Base schema changes:") ;;
      Raise (DbSyncError
        "The output GPKG file exists already but is not synchronized with db 'base' schema")
    else if bool_decide (len summary_modified ≠ 0)
    then
      print ("The output GPKG file exists already but it is not synchronised with "
             +:+ "modified schema, please run pull/push commands to fix it") ;;
      _print_changes_summary summary_modified (Some "Pending Changes:")
    else
      print "The GPKG file, base and modified schemas are already initialized and in sync"
  else
  e' <- call (OsPathExists gpkg_full_path) ;;
  if e'
  then Raise (DbSyncError ("The output GPKG exists but the base schema is missing: "
                           +:+ base conn_cfg))
  else if base_schema_exists
  then Raise (DbSyncError ("The base schema exists but the output GPKG exists is missing: "
                           +:+ gpkg_full_path))
  else init_create_from_db conn_cfg mc conn work_dir gpkg_full_path local_version.

Definition init (conn_cfg : ConnCfg) (mc : MerginClientObj) (from_gpkg : bool) : Prog unit :=
  print ("Processing Mergin Maps project '" +:+ mergin_project conn_cfg +:+ "'") ;;
  project_name <- project_short_name conn_cfg ;;
  print "Connecting to the database..." ;;
  conn <-
    try_except (call (PsycopgConnect (conn_info conn_cfg)))
      (except_PsycopgError
         (fun e => Raise (DbSyncError ("Unable to connect to the database: " +:+ e)))) ;;
  base_schema_exists <- _check_schema_exists conn (base conn_cfg) ;;
  modified_schema_exists <- _check_schema_exists conn (modified conn_cfg) ;;
  let work_dir := os_path_join (working_dir config) project_name in
  let gpkg_full_path := os_path_join work_dir (sync_file conn_cfg) in
  db_proj_info <-
    init_working_dir conn_cfg mc conn base_schema_exists modified_schema_exists
                     work_dir gpkg_full_path ;;
  _check_has_working_dir work_dir ;;
  local_version <- _get_project_version work_dir ;;
  st <- call (McProjectStatus mc work_dir) ;;
  let status_pull := fst st in
  let status_push := snd st in
  print_when (has_changes status_pull)
    "There are pending changes on server, please run pull command after init" ;;
  if has_changes status_push
  then Raise (DbSyncError
         ("There are pending changes in the local directory - that should never happen! "
          +:+ str_changes status_push))
  else
  if from_gpkg
  then init_from_gpkg conn_cfg conn base_schema_exists modified_schema_exists
                      db_proj_info gpkg_full_path local_version
  else init_from_db conn_cfg mc conn base_schema_exists modified_schema_exists
                    db_proj_info work_dir gpkg_full_path local_version.

(** The [from_gpkg] argument is not used: [init] is called with
    [from_gpkg=True] whatever it is. *)
Definition dbsync_init (mc : MerginClientObj) (from_gpkg : bool) : Prog unit :=
  for_each (connections config) (fun conn => init conn mc true) ;;
  print "Init done!".

Definition dbsync_pull (mc : MerginClientObj) : Prog unit :=
  for_each (connections config) (fun conn => pull conn mc) ;;
  print "Pull done!".

Definition dbsync_push (mc : MerginClientObj) : Prog unit :=
  for_each (connections config) (fun conn => push conn mc) ;;
  print "Push done!".

Definition dbsync_status (mc : MerginClientObj) : Prog unit :=
  for_each (connections config) (fun conn => status conn mc).

Definition show_usage : Prog unit :=
  print "dbsync" ;;
  print "" ;;
  print "    dbsync init-from-db   = will create base schema in DB + create gpkg file in working copy" ;;
  print "    dbsync init-from-gpkg = will create base and main schema in DB from gpkg file in working copy" ;;
  print "    dbsync status      = will check whether there is anything to pull or push" ;;
  print "    dbsync push        = will push changes from DB to Mergin Maps" ;;
  print "    dbsync pull        = will pull changes from Mergin Maps to DB".

(** [main()], with [sys.argv] as argument. *)
Definition main (argv : list string) : Prog unit :=
  if bool_decide (len argv < 2)
  then show_usage
  else
  print ("== Starting Mergin Maps DB Sync version " +:+ __version__ +:+ " ==") ;;
  valid <-
    try_except (call (ValidateConfig config) ;; Ret true)
      (except_ConfigError (fun e => print ("Error: " +:+ e) ;; Ret false)) ;;
  if negb valid then Ret tt
  else
  try_except
    (print "Logging in to Mergin Maps..." ;;
     mc <- create_mergin_client ;;
     cmd <- list_index argv 1 ;;
     if bool_decide (cmd = "init-from-gpkg")
     then print "Initializing from an existing GeoPackage..." ;;
          dbsync_init mc true
     else if bool_decide (cmd = "init-from-db")
     then print "Initializing from an existing DB schema..." ;;
          dbsync_init mc false
     else if bool_decide (cmd = "status")
     then dbsync_status mc
     else if bool_decide (cmd = "push")
     then print "Pushing..." ;;
          dbsync_push mc
     else if bool_decide (cmd = "pull")
     then print "Pulling..." ;;
          dbsync_pull mc
     else show_usage)
    (except_DbSyncError (fun e => print ("Error: " +:+ e))).

End DbSync.

(** ** The command line of geodiff

    The commands the program builds, read back from the argument list
    (the first argument is the executable). *)

Inductive GeodiffCmd : Type :=
| GDiff (drv1 src drv2 dst changeset : string)
| GApply (drv name changeset : string)
| GRebase (drv name_base name_our base2their conflicts : string)
| GCopy (drv1 src drv2 dst : string)
| GAsJson (changeset out : string)
| GAsSummary (changeset out : string)
| GUnknown.

Definition parse_geodiff (cmd : list string) : GeodiffCmd :=
  match cmd with
  | _ :: op :: args =>
      if String.eqb op "diff" then
        match args with
        | [f; drv; _; b; m; cs] =>
            if String.eqb f "--driver" then GDiff drv b drv m cs else GUnknown
        | [f1; d1; _; f2; d2; _; src; dst; cs] =>
            if String.eqb f1 "--driver-1" && String.eqb f2 "--driver-2"
            then GDiff d1 src d2 dst cs else GUnknown
        | _ => GUnknown
        end
      else if String.eqb op "apply" then
        match args with
        | [f; drv; _; b; cs] =>
            if String.eqb f "--driver" then GApply drv b cs else GUnknown
        | _ => GUnknown
        end
      else if String.eqb op "rebase-db" then
        match args with
        | [f; drv; _; b; our; b2t; conflicts] =>
            if String.eqb f "--driver" then GRebase drv b our b2t conflicts else GUnknown
        | _ => GUnknown
        end
      else if String.eqb op "copy" then
        match args with
        | [f1; d1; _; f2; d2; _; src; dst] =>
            if String.eqb f1 "--driver-1" && String.eqb f2 "--driver-2"
            then GCopy d1 src d2 dst else GUnknown
        | _ => GUnknown
        end
      else if String.eqb op "as-json" then
        match args with
        | [cs; out] => GAsJson cs out
        | _ => GUnknown
        end
      else if String.eqb op "as-summary" then
        match args with
        | [cs; out] => GAsSummary cs out
        | _ => GUnknown
        end
      else GUnknown
  | _ => GUnknown
  end.

(** ** A model of the collaborators

    The diff engine is opaque: it is a parameter ([DiffEngine]) giving the
    result of each geodiff operation on abstract datasets and changesets.
    The world holds the local files, the database (schemas and their
    comments) and the projects on the Mergin Maps server; [model_handle]
    answers every call of the program in it. *)

Record DiffEngine := {
  Dataset : Type;
  Changeset : Type;
  Dataset_eq_dec : EqDecision Dataset;
  (* geodiff diff / apply / rebase-db / copy; [None] is a failed run *)
  ge_diff : Dataset -> Dataset -> Changeset;
  ge_apply : Dataset -> Changeset -> option Dataset;
  ge_rebase : Dataset -> Dataset -> Changeset -> option (Dataset * bool);
  ge_copy : string -> string -> Dataset -> option Dataset;
  (* size in bytes of a changeset file, its as-summary and as-json lists *)
  ge_size : Changeset -> Z;
  ge_summary : Changeset -> list JsonEntry;
  ge_details : Changeset -> list JsonEntry;
  (* what a successful run of a command writes to stderr *)
  ge_log : list string -> string }.

#[global] Existing Instance Dataset_eq_dec.

Section Model.

Context (G : DiffEngine).

Inductive File : Type :=
| FDir
| FMergin (md : Metadata) (tracked : list string)
| FGpkg (d : Dataset G)
| FChangeset (c : Changeset G)
| FJson (doc : JsonDoc)
| FConflicts.

Record World := MkWorld {
  w_fs : gmap string File;
  w_tmpdir : string;
  w_letters : list string;
  w_getpass : string;
  w_db_up : bool;
  w_schemas : gmap string (Dataset G);
  w_comments : gmap string PgText;
  (* requests the server still answers before the connection is lost *)
  w_requests : nat;
  w_password : string;
  w_geodiff_lib : bool;
  (* project name -> versions, latest first, each with its files *)
  w_projects : gmap string (list (string * list (string * Dataset G))) }.

Definition set_fs (f : gmap string File) (w : World) : World :=
  MkWorld f (w_tmpdir w) (w_letters w) (w_getpass w) (w_db_up w) (w_schemas w)
          (w_comments w) (w_requests w) (w_password w) (w_geodiff_lib w) (w_projects w).
Definition set_letters (l : list string) (w : World) : World :=
  MkWorld (w_fs w) (w_tmpdir w) l (w_getpass w) (w_db_up w) (w_schemas w)
          (w_comments w) (w_requests w) (w_password w) (w_geodiff_lib w) (w_projects w).
Definition set_schemas (m : gmap string (Dataset G)) (w : World) : World :=
  MkWorld (w_fs w) (w_tmpdir w) (w_letters w) (w_getpass w) (w_db_up w) m
          (w_comments w) (w_requests w) (w_password w) (w_geodiff_lib w) (w_projects w).
Definition set_comments (m : gmap string PgText) (w : World) : World :=
  MkWorld (w_fs w) (w_tmpdir w) (w_letters w) (w_getpass w) (w_db_up w) (w_schemas w)
          m (w_requests w) (w_password w) (w_geodiff_lib w) (w_projects w).
Definition set_projects (m : gmap string (list (string * list (string * Dataset G))))
    (w : World) : World :=
  MkWorld (w_fs w) (w_tmpdir w) (w_letters w) (w_getpass w) (w_db_up w) (w_schemas w)
          (w_comments w) (w_requests w) (w_password w) (w_geodiff_lib w) m.

(** *** Files *)

Definition is_dir (f : File) : bool :=
  match f with FDir | FMergin _ _ => true | _ => false end.

Definition file_size (f : File) : Z :=
  match f with
  | FChangeset c => ge_size G c
  | FDir | FMergin _ _ => 4096
  | FGpkg _ => 4096
  | FJson _ => 2
  | FConflicts => 2
  end.

Definition os_remove (p : string) (w : World) : Resp unit * World :=
  match w_fs w !! p with
  | Some f =>
      if is_dir f then (Thrown OSError ("Is a directory: " +:+ p), w)
      else (Returned tt, set_fs (delete p (w_fs w)) w)
  | None => (Thrown OSError ("No such file or directory: " +:+ p), w)
  end.

Definition os_path_getsize (p : string) (w : World) : Resp Z * World :=
  match w_fs w !! p with
  | Some f => (Returned (file_size f), w)
  | None => (Thrown OSError ("No such file or directory: " +:+ p), w)
  end.

Definition shutil_copy (src dst : string) (w : World) : Resp unit * World :=
  match w_fs w !! src with
  | Some f =>
      if is_dir f then (Thrown OSError ("Is a directory: " +:+ src), w)
      else (Returned tt, set_fs (<[dst := f]> (w_fs w)) w)
  | None => (Thrown OSError ("No such file or directory: " +:+ src), w)
  end.

Definition under (dir p : string) : bool :=
  bool_decide (p = dir) || String.prefix (dir +:+ "/") p.

Definition shutil_rmtree (p : string) (w : World) : Resp unit * World :=
  match w_fs w !! p with
  | Some f =>
      if is_dir f
      then (Returned tt, set_fs (filter (fun kv => under p (fst kv) = false) (w_fs w)) w)
      else (Thrown OSError ("Not a directory: " +:+ p), w)
  | None => (Thrown OSError ("No such file or directory: " +:+ p), w)
  end.

Definition random_letters (w : World) : Resp string * World :=
  match w_letters w with
  | x :: l => (Returned x, set_letters l w)
  | [] => (Returned "AAAAAAAA", w)
  end.

Definition json_load_file (p : string) (w : World) : Resp JsonDoc * World :=
  match w_fs w !! p with
  | Some (FJson doc) => (Returned doc, w)
  | Some _ => (Thrown OSError ("Not a JSON document: " +:+ p), w)
  | None => (Thrown OSError ("No such file or directory: " +:+ p), w)
  end.

(** *** The geodiff executable *)

(** A dataset is a GeoPackage file (driver [sqlite]) or a schema of the
    database (any other driver). *)
Definition read_dataset (drv name : string) (w : World) : option (Dataset G) :=
  if bool_decide (drv = "sqlite")
  then match w_fs w !! name with Some (FGpkg d) => Some d | _ => None end
  else if w_db_up w then w_schemas w !! name else None.

Definition write_dataset (drv name : string) (d : Dataset G) (w : World) : World :=
  if bool_decide (drv = "sqlite")
  then set_fs (<[name := FGpkg d]> (w_fs w)) w
  else set_schemas (<[name := d]> (w_schemas w)) w.

(** [copy] creates its destination anew: an existing schema is dropped
    with its comment. *)
Definition create_dataset (drv name : string) (d : Dataset G) (w : World) : World :=
  if bool_decide (drv = "sqlite")
  then set_fs (<[name := FGpkg d]> (w_fs w)) w
  else set_comments (delete name (w_comments w))
         (set_schemas (<[name := d]> (w_schemas w)) w).

Definition changeset_at (fs : gmap string File) (p : string) : option (Changeset G) :=
  match fs !! p with Some (FChangeset c) => Some c | _ => None end.
Definition read_changeset (p : string) (w : World) : option (Changeset G) :=
  changeset_at (w_fs w) p.

(** The changeset files of [fs'] were there, with the same content, in
    [fs]. *)
Definition changesets_kept (fs fs' : gmap string File) : Prop :=
  forall p c, changeset_at fs' p = Some c -> changeset_at fs p = Some c.

Definition is_changeset (f : File) : bool :=
  match f with FChangeset _ => true | _ => false end.

Definition exit_ok (cmd : list string) : CompletedProcess :=
  {| returncode := 0; stderr := ge_log G cmd |}.
Definition exit_error : CompletedProcess :=
  {| returncode := 1; stderr := "Error: geodiff command failed" |}.

Definition geodiff_diff (cmd : list string) (drv1 src drv2 dst changeset : string)
    (w : World) : CompletedProcess * World :=
  match read_dataset drv1 src w, read_dataset drv2 dst w with
  | Some a, Some b =>
      (exit_ok cmd, set_fs (<[changeset := FChangeset (ge_diff G a b)]> (w_fs w)) w)
  | _, _ => (exit_error, w)
  end.

Definition geodiff_apply (cmd : list string) (drv name changeset : string) (w : World)
  : CompletedProcess * World :=
  match read_dataset drv name w, read_changeset changeset w with
  | Some d, Some c =>
      match ge_apply G d c with
      | Some d' => (exit_ok cmd, write_dataset drv name d' w)
      | None => (exit_error, w)
      end
  | _, _ => (exit_error, w)
  end.

Definition geodiff_rebase (cmd : list string) (drv name_base name_our base2their conflicts : string)
    (w : World) : CompletedProcess * World :=
  match read_dataset drv name_base w, read_dataset drv name_our w,
        read_changeset base2their w with
  | Some b, Some o, Some c =>
      match ge_rebase G b o c with
      | Some (o', has_conflicts) =>
          let w' := write_dataset drv name_our o' w in
          (exit_ok cmd,
           if has_conflicts : bool
           then set_fs (<[conflicts := FConflicts]> (w_fs w')) w'
           else w')
      | None => (exit_error, w)
      end
  | _, _, _ => (exit_error, w)
  end.

Definition geodiff_copy (cmd : list string) (drv1 src drv2 dst : string) (w : World)
  : CompletedProcess * World :=
  match read_dataset drv1 src w with
  | Some d =>
      match ge_copy G drv1 drv2 d with
      | Some d' => (exit_ok cmd, create_dataset drv2 dst d' w)
      | None => (exit_error, w)
      end
  | None => (exit_error, w)
  end.

Definition geodiff_as (cmd : list string) (key : string)
    (f : Changeset G -> list JsonEntry) (changeset out : string) (w : World)
  : CompletedProcess * World :=
  match read_changeset changeset w with
  | Some c => (exit_ok cmd, set_fs (<[out := FJson [(key, f c)]]> (w_fs w)) w)
  | None => (exit_error, w)
  end.

Definition subprocess_run (cmd : list string) (w : World) : CompletedProcess * World :=
  match parse_geodiff cmd with
  | GDiff d1 src d2 dst cs => geodiff_diff cmd d1 src d2 dst cs w
  | GApply drv b cs => geodiff_apply cmd drv b cs w
  | GRebase drv b our b2t conflicts => geodiff_rebase cmd drv b our b2t conflicts w
  | GCopy d1 src d2 dst => geodiff_copy cmd d1 src d2 dst w
  | GAsJson cs out => geodiff_as cmd "geodiff" (ge_details G) cs out w
  | GAsSummary cs out => geodiff_as cmd "geodiff_summary" (ge_summary G) cs out w
  | GUnknown => (exit_error, w)
  end.

(** *** The database *)

Definition psycopg_connect (dsn : string) (w : World) : Resp Connection * World :=
  if w_db_up w then (Returned {| conn_dsn := dsn |}, w)
  else (Thrown PsycopgError "could not connect to server", w).

Definition sql_comment_on_schema (schema : string) (text : PgText) (w : World)
  : Resp unit * World :=
  match w_schemas w !! schema with
  | Some _ => (Returned tt, set_comments (<[schema := text]> (w_comments w)) w)
  | None => (Thrown PsycopgError ("schema does not exist: " +:+ schema), w)
  end.

Definition sql_obj_description (schema : string) (w : World) : Resp (option PgText) * World :=
  match w_schemas w !! schema with
  | Some _ => (Returned (w_comments w !! schema), w)
  | None => (Thrown PsycopgError ("schema does not exist: " +:+ schema), w)
  end.

(** *** The Mergin Maps client and server *)

Definition set_requests (n : nat) (w : World) : World :=
  MkWorld (w_fs w) (w_tmpdir w) (w_letters w) (w_getpass w) (w_db_up w) (w_schemas w)
          (w_comments w) n (w_password w) (w_geodiff_lib w) (w_projects w).

(** A request to the server: answered while the connection lasts. *)
Definition with_server {X} (w : World) (f : World -> Resp X * World) : Resp X * World :=
  match w_requests w with
  | O => (Thrown ClientError "Connection refused", w)
  | S n => f (set_requests n w)
  end.

Definition meta_path (dir : string) : string := os_path_join dir ".mergin".
Definition work_path (dir name : string) : string := os_path_join dir name.
Definition base_path (dir name : string) : string := os_path_join (meta_path dir) name.

Definition read_gpkg (p : string) (w : World) : option (Dataset G) :=
  match w_fs w !! p with Some (FGpkg d) => Some d | _ => None end.

(** Name of [p] relative to [dir], for a file directly in [dir]. *)
Definition rel_name (dir p : string) : option string :=
  let pre := dir +:+ "/" in
  if String.prefix pre p
  then
    let name := String.substring (String.length pre) (String.length p - String.length pre) p in
    if existsb (fun c => Ascii.eqb c "/"%char) (list_ascii_of_string name)
    then None else Some name
  else None.

Definition untracked (dir : string) (tracked : list string) (w : World) : list string :=
  omap (fun kv =>
          match snd kv, rel_name dir (fst kv) with
          | FGpkg _, Some name => if bool_decide (name ∈ tracked) then None else Some name
          | _, _ => None
          end)
       (map_to_list (w_fs w)).

Definition file_info (name : string) : FileInfo := {| path := name |}.

(** [mp.get_push_changes()]: working files against their base copies. *)
Definition push_changes (dir : string) (tracked : list string) (w : World) : ChangesDict :=
  {| added := map file_info (untracked dir tracked w);
     updated :=
       map file_info
         (List.filter (fun name =>
                    match read_gpkg (work_path dir name) w, read_gpkg (base_path dir name) w with
                    | Some a, Some b => bool_decide (a ≠ b)
                    | Some _, None => true
                    | None, _ => false
                    end) tracked);
     removed :=
       map file_info
         (List.filter (fun name => bool_decide (w_fs w !! work_path dir name = None))
                      tracked) |}.

(** Pending changes on the server: the files of a server version against
    the base copies. *)
Definition pull_changes (dir : string) (tracked : list string)
    (files : list (string * Dataset G)) (w : World) : ChangesDict :=
  {| added := map file_info
                (List.filter (fun name => bool_decide (name ∉ tracked)) (map fst files));
     updated :=
       map file_info
         (map fst
            (List.filter (fun nf =>
                       match read_gpkg (base_path dir (fst nf)) w with
                       | Some b => bool_decide (fst nf ∈ tracked) && bool_decide (b ≠ snd nf)
                       | None => false
                       end) files));
     removed :=
       map file_info
         (List.filter (fun name => bool_decide (name ∉ map fst files)) tracked) |}.

Definition read_meta (dir : string) (w : World) : option (Metadata * list string) :=
  match w_fs w !! meta_path dir with
  | Some (FMergin md tracked) => Some (md, tracked)
  | _ => None
  end.

Definition latest (project : string) (w : World)
  : option (string * list (string * Dataset G)) :=
  match w_projects w !! project with
  | Some (v :: _) => Some v
  | _ => None
  end.

Definition mergin_client_new (url login pw : string) (w : World)
  : Resp MerginClientObj * World :=
  with_server w (fun w =>
    if bool_decide (pw = w_password w)
    then (Returned {| mc_url := url; mc_login := login |}, w)
    else (Thrown LoginError "Invalid username or password", w)).

Definition mc_get_projects_by_names (names : list string) (w : World)
  : Resp (list (string * string)) * World :=
  with_server w (fun w =>
    (Returned (omap (fun n => match latest n w with
                                 | Some (v, _) => Some (n, v)
                                 | None => None
                                 end) names), w)).

(** The files of a version written into a working directory, with their
    base copies and the metadata. *)
Definition checkout (dir project version : string) (files : list (string * Dataset G))
    (fs : gmap string File) : gmap string File :=
  <[meta_path dir := FMergin {| md_name := project; md_version := version |} (map fst files)]>
    (foldr (fun nf acc =>
              <[work_path dir (fst nf) := FGpkg (snd nf)]>
                (<[base_path dir (fst nf) := FGpkg (snd nf)]> acc))
           fs files).

Definition mc_download_project (project dir : string) (version : option string) (w : World)
  : Resp unit * World :=
  with_server w (fun w =>
    match w_fs w !! dir, w_projects w !! project with
    | Some _, _ => (Thrown OSError ("Project directory already exists: " +:+ dir), w)
    | None, Some ((v0, files0) :: hist) =>
        match version with
        | None =>
            (Returned tt, set_fs (checkout dir project v0 files0 (<[dir := FDir]> (w_fs w))) w)
        | Some v =>
            match dict_lookup ((v0, files0) :: hist) v with
            | Some files =>
                (Returned tt, set_fs (checkout dir project v files (<[dir := FDir]> (w_fs w))) w)
            | None => (Thrown ClientError ("Version not found: " +:+ v), w)
            end
        end
    | None, _ => (Thrown ClientError ("Project not found: " +:+ project), w)
    end).

(** [mc.pull_project]: the working directory is brought to the latest
    version (the program calls it without local file changes). *)
Definition mc_pull_project (dir : string) (w : World) : Resp unit * World :=
  with_server w (fun w =>
    match read_meta dir w with
    | Some (md, tracked) =>
        match latest (md_name md) w with
        | Some (v, files) =>
            let gone :=
              List.filter (fun name => bool_decide (name ∉ map fst files)) tracked in
            let fs1 := foldr (fun name acc =>
                                delete (work_path dir name) (delete (base_path dir name) acc))
                             (w_fs w) gone in
            (Returned tt, set_fs (checkout dir (md_name md) v files fs1) w)
        | None => (Thrown ClientError ("Project not found: " +:+ md_name md), w)
        end
    | None => (Thrown OSError ("Not a Mergin Maps project: " +:+ dir), w)
    end).

(** [mc.push_project]: the local file changes become a new version. *)
Definition mc_push_project (dir : string) (w : World) : Resp unit * World :=
  with_server w (fun w =>
    match read_meta dir w with
    | Some (md, tracked) =>
        match w_projects w !! md_name md with
        | Some ((v0, files0) :: hist) =>
            if bool_decide (v0 ≠ md_version md)
            then (Thrown ClientError "There is a new version of the project on the server", w)
            else
              let ch := push_changes dir tracked w in
              if negb (has_changes ch) then (Returned tt, w)
              else
                let names :=
                  (List.filter
                     (fun name => bool_decide (is_Some (w_fs w !! work_path dir name)))
                     tracked
                   ++ untracked dir tracked w)%list in
                let files :=
                  omap (fun name => match read_gpkg (work_path dir name) w with
                                    | Some d => Some (name, d)
                                    | None => None
                                    end) names in
                let v' := "v" +:+ pretty (S (length ((v0, files0) :: hist))) in
                let fs1 := foldr (fun name acc => delete (base_path dir name) acc)
                                 (w_fs w) tracked in
                (Returned tt,
                 set_projects (<[md_name md := (v', files) :: (v0, files0) :: hist]>
                                 (w_projects w))
                   (set_fs (checkout dir (md_name md) v' files fs1) w))
        | _ => (Thrown ClientError ("Project not found: " +:+ md_name md), w)
        end
    | None => (Thrown OSError ("Not a Mergin Maps project: " +:+ dir), w)
    end).

Definition server_files (files : list (string * Dataset G)) : list FileInfo :=
  map (fun nf => file_info (fst nf)) files.

Definition mc_project_status (dir : string) (w : World)
  : Resp (ChangesDict * ChangesDict) * World :=
  with_server w (fun w =>
    match read_meta dir w with
    | Some (md, tracked) =>
        match latest (md_name md) w with
        | Some (_, files) =>
            (Returned (pull_changes dir tracked files w, push_changes dir tracked w), w)
        | None => (Thrown ClientError ("Project not found: " +:+ md_name md), w)
        end
    | None => (Thrown OSError ("Not a Mergin Maps project: " +:+ dir), w)
    end).

Definition mc_project_info (project_path : string) (w : World) : Resp ServerInfo * World :=
  with_server w (fun w =>
    match latest project_path w with
    | Some (v, files) => (Returned {| si_version := v; si_files := server_files files |}, w)
    | None => (Thrown ClientError ("Project not found: " +:+ project_path), w)
    end).

Definition mergin_project_new (dir : string) (w : World) : Resp MerginProjectObj * World :=
  match read_meta dir w with
  | Some _ => (Returned {| mp_dir := dir; mp_geodiff := w_geodiff_lib w |}, w)
  | None => (Thrown OSError ("Not a Mergin Maps project: " +:+ dir), w)
  end.

Definition mp_metadata (mp : MerginProjectObj) (w : World) : Resp Metadata * World :=
  match read_meta (mp_dir mp) w with
  | Some (md, _) => (Returned md, w)
  | None => (Thrown OSError ("Not a Mergin Maps project: " +:+ mp_dir mp), w)
  end.

Definition mp_get_push_changes (mp : MerginProjectObj) (w : World)
  : Resp ChangesDict * World :=
  match read_meta (mp_dir mp) w with
  | Some (_, tracked) => (Returned (push_changes (mp_dir mp) tracked w), w)
  | None => (Thrown OSError ("Not a Mergin Maps project: " +:+ mp_dir mp), w)
  end.

(** [mp.get_pull_changes(server_files)]: by file name, the file details
    of the model carrying nothing else. *)
Definition mp_get_pull_changes (mp : MerginProjectObj) (files : list FileInfo) (w : World)
  : Resp ChangesDict * World :=
  match read_meta (mp_dir mp) w with
  | Some (md, tracked) =>
      match latest (md_name md) w with
      | Some (_, sfiles) =>
          (Returned (pull_changes (mp_dir mp) tracked
                       (List.filter (fun nf => bool_decide (fst nf ∈ map path files))
                                    sfiles) w), w)
      | None =>
          (Returned {| added := List.filter (fun f => bool_decide (path f ∉ tracked)) files;
                       updated := [];
                       removed := [] |}, w)
      end
  | None => (Thrown OSError ("Not a Mergin Maps project: " +:+ mp_dir mp), w)
  end.

(** *** The missing [validate_config]

    Modelled from the tests of [config.py] (the function itself is not in
    the sources): the checks of [test_config.py], in its order. *)
Definition validate_config (cfg : Config) : Resp unit :=
  if bool_decide (username (mergin cfg) = "") || bool_decide (url (mergin cfg) = "")
  then Thrown ConfigError "Config error: Incorrect mergin settings"
  else if bool_decide (working_dir cfg = "")
  then Thrown ConfigError "Config error: Working directory is not set"
  else if bool_decide (geodiff_exe cfg = "")
  then Thrown ConfigError "Config error: Path to geodiff executable is not set"
  else if bool_decide (connections cfg = [])
  then Thrown ConfigError "Config error: Schemas list can not be empty"
  else if existsb (fun c => bool_decide (base c = "") || bool_decide (modified c = "")
                            || bool_decide (mergin_project c = "")
                            || bool_decide (sync_file c = "")) (connections cfg)
  then Thrown ConfigError "Config error: Incorrect schema settings"
  else if existsb (fun c => negb (bool_decide (driver c = "postgres"))) (connections cfg)
  then Thrown ConfigError "Config error: Only 'postgres' driver is currently supported."
  else Returned tt.

(** *** The handler *)

Definition model_handle (X : Type) (c : Call X) (w : World) : Resp X * World :=
  match c in Call X return Resp X * World with
  | OsPathExists p => (Returned (bool_decide (is_Some (w_fs w !! p))), w)
  | OsRemove p => os_remove p w
  | OsPathGetsize p => os_path_getsize p w
  | ShutilCopy src dst => shutil_copy src dst w
  | ShutilRmtree p => shutil_rmtree p w
  | TempfileGettempdir => (Returned (w_tmpdir w), w)
  | RandomAsciiLetters8 => random_letters w
  | JsonLoadFile p => json_load_file p w
  | Getpass _ => (Returned (w_getpass w), w)
  | SubprocessRun cmd => let r := subprocess_run cmd w in (Returned (fst r), snd r)
  | PsycopgConnect dsn => psycopg_connect dsn w
  | SqlSchemaExists _ schema => (Returned (bool_decide (is_Some (w_schemas w !! schema))), w)
  | SqlCommentOnSchema _ schema text => sql_comment_on_schema schema text w
  | SqlObjDescription _ schema => sql_obj_description schema w
  | MerginClientNew url login pw _ => mergin_client_new url login pw w
  | McGetProjectsByNames _ names => mc_get_projects_by_names names w
  | McPullProject _ dir => mc_pull_project dir w
  | McPushProject _ dir => mc_push_project dir w
  | McDownloadProject _ project dir version => mc_download_project project dir version w
  | McProjectStatus _ dir => mc_project_status dir w
  | McProjectInfo _ project_path _ => mc_project_info project_path w
  | MerginProjectNew dir => mergin_project_new dir w
  | MpMetadata mp => mp_metadata mp w
  | MpGetPushChanges mp => mp_get_push_changes mp w
  | MpGetPullChanges mp files => mp_get_pull_changes mp files w
  | ValidateConfig cfg => (validate_config cfg, w)
  end.

Definition ModelEnv : Env := {| env_state := World; env_handle := model_handle |}.

End Model.

(** ** Classifying the events of a trace *)

(** The command of a [subprocess.run] event and its answer. *)
Definition ev_subprocess (ev : Event) : option (list string * Resp CompletedProcess) :=
  match ev with
  | EvCall c r =>
      match c in Call X return Resp X -> option (list string * Resp CompletedProcess) with
      | SubprocessRun cmd => fun r => Some (cmd, r)
      | _ => fun _ => None
      end r
  end.

(** A geodiff command that writes to a dataset of the database: [apply]
    and [rebase-db] on a driver other than [sqlite], [copy] to one. *)
Definition geodiff_writes_db (cmd : list string) : bool :=
  match parse_geodiff cmd with
  | GApply drv _ _ => negb (bool_decide (drv = "sqlite"))
  | GRebase drv _ _ _ _ => negb (bool_decide (drv = "sqlite"))
  | GCopy _ _ d2 _ => negb (bool_decide (d2 = "sqlite"))
  | _ => false
  end.

(** The event is the issue of a [COMMENT ON SCHEMA]. *)
Definition is_comment_write (ev : Event) : bool :=
  match ev with
  | EvCall c _ => match c with SqlCommentOnSchema _ _ _ => true | _ => false end
  end.

(** The event changes the database: a comment is written or geodiff
    writes to a schema. *)
Definition mutates_db (ev : Event) : bool :=
  is_comment_write ev
  || match ev_subprocess ev with
     | Some (cmd, _) => geodiff_writes_db cmd
     | None => false
     end.

(** ** Observations on traces *)

(** Programs that only print. *)
Fixpoint no_calls {A} (p : Prog A) : Prop :=
  match p with
  | Ret _ | Raise _ => True
  | Print _ k => no_calls k
  | Do _ _ => False
  end.

(** The upload of the working directory, and how it was answered. *)
Definition ev_upload (ev : Event) : option (Resp unit) :=
  match ev with
  | EvCall c r =>
      match c in Call X return Resp X -> option (Resp unit) with
      | McPushProject _ _ => fun r => Some r
      | _ => fun _ => None
      end r
  end.
Definition upload_failed (ev : Event) : bool :=
  match ev_upload ev with Some (Thrown _ _) => true | _ => false end.
Definition uploaded (ev : Event) : bool :=
  match ev_upload ev with Some (Returned _) => true | _ => false end.

(** A request to the project server. *)
Definition contacts_server (ev : Event) : bool :=
  match ev with
  | EvCall c _ =>
      match c with
      | MerginClientNew _ _ _ _ | McGetProjectsByNames _ _ | McPullProject _ _
      | McPushProject _ _ | McDownloadProject _ _ _ _ | McProjectStatus _ _
      | McProjectInfo _ _ _ => true
      | _ => false
      end
  end.

(** The answer of the working directory about pending local file
    changes: [mp.get_push_changes()], or the push part of
    [mc.project_status()]; [pending_query] is the first one of a trace. *)
Definition ev_pending (ev : Event) : option ChangesDict :=
  match ev with
  | EvCall c r =>
      match c in Call X return Resp X -> option ChangesDict with
      | MpGetPushChanges _ =>
          fun r => match r with Returned d => Some d | Thrown _ _ => None end
      | McProjectStatus _ _ =>
          fun r => match r with Returned st => Some (snd st) | Thrown _ _ => None end
      | _ => fun _ => None
      end r
  end.
Definition pending_query (tr : list Event) : option ChangesDict :=
  head (omap ev_pending tr).

(** The geodiff commands of a trace that write to a dataset
    ([apply], [rebase-db], [copy]), in order. *)
Definition is_dataset_write (cmd : list string) : bool :=
  match parse_geodiff cmd with
  | GApply _ _ _ | GRebase _ _ _ _ _ | GCopy _ _ _ _ => true
  | _ => false
  end.
Definition dataset_writes (tr : list Event) : list (list string) :=
  omap (fun ev => match ev_subprocess ev with
                  | Some (cmd, _) => if is_dataset_write cmd then Some cmd else None
                  | None => None
                  end) tr.
Definition is_copy (ev : Event) : bool :=
  match ev_subprocess ev with
  | Some (cmd, _) => match parse_geodiff cmd with GCopy _ _ _ _ => true | _ => false end
  | None => false
  end.

(** The first answers of [tempfile.gettempdir()] and of
    [os.path.getsize]. *)
Definition ev_tmpdir (ev : Event) : option string :=
  match ev with
  | EvCall c r =>
      match c in Call X return Resp X -> option string with
      | TempfileGettempdir =>
          fun r => match r with Returned d => Some d | Thrown _ _ => None end
      | _ => fun _ => None
      end r
  end.
Definition ev_getsize (ev : Event) : option Z :=
  match ev with
  | EvCall c r =>
      match c in Call X return Resp X -> option Z with
      | OsPathGetsize _ =>
          fun r => match r with Returned z => Some z | Thrown _ _ => None end
      | _ => fun _ => None
      end r
  end.
Definition tmpdir_of (tr : list Event) : option string := head (omap ev_tmpdir tr).
Definition getsize_of (tr : list Event) : option Z := head (omap ev_getsize tr).

(** The comments written to schemas, in order. *)
Definition ev_comment_write (ev : Event) : option (string * PgText) :=
  match ev with
  | EvCall c _ =>
      match c with
      | SqlCommentOnSchema _ schema text => Some (schema, text)
      | _ => None
      end
  end.
Definition comment_writes (tr : list Event) : list (string * PgText) :=
  omap ev_comment_write tr.

(** The comment read from a schema. *)
Definition ev_comment_read (ev : Event) : option (option PgText) :=
  match ev with
  | EvCall c r =>
      match c in Call X return Resp X -> option (option PgText) with
      | SqlObjDescription _ _ =>
          fun r => match r with Returned t => Some t | Thrown _ _ => None end
      | _ => fun _ => None
      end r
  end.
(** The [error] field of the comment read, when it decodes and has one. *)
Definition stored_error (tr : list Event) : option string :=
  match head (omap ev_comment_read tr) with
  | Some (Some t) =>
      match json_loads t with
      | Some info => dict_lookup info "error"
      | None => None
      end
  | _ => None
  end.

(** The answers about the existence of the two schemas ([base] first). *)
Definition ev_schema_exists (ev : Event) : option bool :=
  match ev with
  | EvCall c r =>
      match c in Call X return Resp X -> option bool with
      | SqlSchemaExists _ _ =>
          fun r => match r with Returned b => Some b | Thrown _ _ => None end
      | _ => fun _ => None
      end r
  end.
Definition schemas_found (tr : list Event) : list bool :=
  take 2 (omap ev_schema_exists tr).

(** The project versions read from the working directory, in order. *)
Definition ev_metadata (ev : Event) : option Metadata :=
  match ev with
  | EvCall c r =>
      match c in Call X return Resp X -> option Metadata with
      | MpMetadata _ => fun r => match r with Returned md => Some md | Thrown _ _ => None end
      | _ => fun _ => None
      end r
  end.
Definition last_version (tr : list Event) : option string :=
  md_version <$> last (omap ev_metadata tr).

(** A JSON listing loaded and its file removed: what
    [_geodiff_list_changes_details] and [_geodiff_list_changes_summary]
    hand to their caller. *)
Definition ev_json_load (ev : Event) : option (string * JsonDoc) :=
  match ev with
  | EvCall c r =>
      match c in Call X return Resp X -> option (string * JsonDoc) with
      | JsonLoadFile p =>
          fun r => match r with Returned doc => Some (p, doc) | Thrown _ _ => None end
      | _ => fun _ => None
      end r
  end.
Definition ev_removed (ev : Event) : option string :=
  match ev with
  | EvCall c r =>
      match c in Call X return Resp X -> option string with
      | OsRemove p => fun r => match r with Returned _ => Some p | Thrown _ _ => None end
      | _ => fun _ => None
      end r
  end.
Fixpoint listings (tr : list Event) : list JsonDoc :=
  match tr with
  | ev :: tr' =>
      match ev_json_load ev, tr' with
      | Some (_, doc), ev' :: _ =>
          match ev_removed ev' with
          | Some _ => doc :: listings tr'
          | None => listings tr'
          end
      | _, _ => listings tr'
      end
  | [] => []
  end.
(** The entries of the self-check changeset: the [geodiff] list of the
    last listing. *)
Definition selfcheck_entries (tr : list Event) : option (list JsonEntry) :=
  match last (listings tr) with
  | Some doc => dict_lookup doc "geodiff"
  | None => None
  end.

(** A call that stays on the local machine and leaves the datasets alone:
    temporary files and the geodiff commands [diff], [as-json],
    [as-summary]. *)
Definition local_ev (ev : Event) : bool :=
  match ev with
  | EvCall c _ =>
      match c with
      | TempfileGettempdir | RandomAsciiLetters8 | OsPathExists _ | OsRemove _
      | JsonLoadFile _ => true
      | SubprocessRun cmd =>
          match parse_geodiff cmd with
          | GDiff _ _ _ _ _ | GAsJson _ _ | GAsSummary _ _ => true
          | _ => false
          end
      | _ => false
      end
  end.

(** ** Temporary files

    A path is known to be free after [os.path.exists] has answered
    [False] for it or [os.remove] has removed it.  geodiff writes a
    temporary file when it creates a changeset ([diff]) or a JSON listing
    ([as-json], [as-summary]). *)
Definition ev_freed (ev : Event) : option string :=
  match ev with
  | EvCall c r =>
      match c in Call X return Resp X -> option string with
      | OsPathExists p =>
          fun r => match r with Returned false => Some p | _ => None end
      | OsRemove p => fun r => match r with Returned _ => Some p | Thrown _ _ => None end
      | _ => fun _ => None
      end r
  end.

Definition ev_writes_tmp (ev : Event) : option string :=
  match ev_subprocess ev with
  | Some (cmd, _) =>
      match parse_geodiff cmd with
      | GDiff _ _ _ _ cs => Some cs
      | GAsJson _ out | GAsSummary _ out => Some out
      | _ => None
      end
  | None => None
  end.

(** Calls that may create files of their own accord. *)
Definition may_create_files (ev : Event) : bool :=
  match ev with
  | EvCall c _ =>
      match c with
      | ShutilCopy _ _ | McPullProject _ _ | McPushProject _ _
      | McDownloadProject _ _ _ _ | SubprocessRun _ => true
      | _ => false
      end
  end.

(** Every temporary file geodiff writes is written to a path in [free]:
    one found absent, or removed, since the last call that may have
    created a file. *)
Fixpoint fresh_writes (free : list string) (tr : list Event) : Prop :=
  match tr with
  | [] => True
  | ev :: tr' =>
      match ev_writes_tmp ev, ev_freed ev with
      | Some p, _ => In p free /\ fresh_writes [] tr'
      | None, Some p => fresh_writes (p :: free) tr'
      | None, None =>
          if may_create_files ev then fresh_writes [] tr' else fresh_writes free tr'
      end
  end.

(** The path of an [os.remove] call, whatever its answer. *)
Definition ev_remove_call (ev : Event) : option string :=
  match ev with
  | EvCall c _ => match c with OsRemove p => Some p | _ => None end
  end.

(** Every JSON listing that was loaded is removed by the next call. *)
Fixpoint listings_removed (tr : list Event) : Prop :=
  match tr with
  | [] => True
  | ev :: tr' =>
      match ev_json_load ev with
      | Some (p, _) =>
          match tr' with
          | ev' :: _ => ev_remove_call ev' = Some p
          | [] => False
          end
          /\ listings_removed tr'
      | None => listings_removed tr'
      end
  end.

(** A call that may put a changeset file in place: geodiff [diff], and
    a copy of a file. *)
Definition creates_changeset (ev : Event) : bool :=
  match ev with
  | EvCall c _ =>
      match c with
      | ShutilCopy _ _ => true
      | SubprocessRun cmd =>
          match parse_geodiff cmd with GDiff _ _ _ _ _ => true | _ => false end
      | _ => false
      end
  end.

(** ** The four operations *)

Inductive Op : Type := OpInit (from_gpkg : bool) | OpPull | OpPush | OpStatus.

Definition run_op (config : Config) (op : Op) (conn_cfg : ConnCfg) (mc : MerginClientObj)
  : Prog unit :=
  match op with
  | OpInit from_gpkg => init config conn_cfg mc from_gpkg
  | OpPull => pull config conn_cfg mc
  | OpPush => push config conn_cfg mc
  | OpStatus => status config conn_cfg mc
  end.

(** The short name of the project, [""] when the project identifier has
    no second component (the operations then fail at once). *)
Definition project_name_of (conn_cfg : ConnCfg) : string :=
  default "" (split_slash (mergin_project conn_cfg) !! 1%nat).

(** ** The command line *)

(** The function [main] dispatches to, by operation. *)
Definition dbsync_op (config : Config) (op : Op) (mc : MerginClientObj) : Prog unit :=
  match op with
  | OpInit from_gpkg => dbsync_init config mc from_gpkg
  | OpPull => dbsync_pull config mc
  | OpPush => dbsync_push config mc
  | OpStatus => dbsync_status config mc
  end.

(** The operation a [dbsync_*] function runs on each pair. *)
Definition op_per_pair (op : Op) : Op :=
  match op with OpInit _ => OpInit true | _ => op end.

Definition has_slash (s : string) : bool :=
  existsb (fun c => Ascii.eqb c "/"%char) (list_ascii_of_string s).

Definition known_command (cmd : string) : bool :=
  bool_decide (cmd ∈ ["init-from-gpkg"; "init-from-db"; "status"; "push"; "pull"]).

(** Calls of the start of [main]: the check of the configuration, the
    password prompt and the login. *)
Definition startup_call (ev : Event) : bool :=
  match ev with
  | EvCall c _ =>
      match c with
      | ValidateConfig _ | Getpass _ | MerginClientNew _ _ _ _ => true
      | _ => false
      end
  end.

(** The login, and how it was answered. *)
Definition ev_login (ev : Event) : option (Resp MerginClientObj) :=
  match ev with
  | EvCall c r =>
      match c in Call X return Resp X -> option (Resp MerginClientObj) with
      | MerginClientNew _ _ _ _ => fun r => Some r
      | _ => fun _ => None
      end r
  end.
Definition logged_in (ev : Event) : bool :=
  match ev_login ev with Some (Returned _) => true | _ => false end.
Definition login_answer (tr : list Event) : option (Resp MerginClientObj) :=
  head (omap ev_login tr).

(** ** What an operation changes *)

(** A call that changes a dataset, a schema comment, the working
    directory or the project on the server (everything but temporary
    files). *)
Definition changes_data (ev : Event) : bool :=
  match ev with
  | EvCall c _ =>
      match c with
      | SqlCommentOnSchema _ _ _ | ShutilCopy _ _ | ShutilRmtree _
      | McPullProject _ _ | McPushProject _ _ | McDownloadProject _ _ _ _ => true
      | SubprocessRun cmd => is_dataset_write cmd
      | _ => false
      end
  end.

(** The download of the new version by [pull], and how it was answered. *)
Definition ev_download (ev : Event) : option (Resp unit) :=
  match ev with
  | EvCall c r =>
      match c in Call X return Resp X -> option (Resp unit) with
      | McPullProject _ _ => fun r => Some r
      | _ => fun _ => None
      end r
  end.
Definition download_failed (ev : Event) : bool :=
  match ev_download ev with Some (Thrown _ _) => true | _ => false end.
Definition downloaded (ev : Event) : bool :=
  match ev_download ev with Some (Returned _) => true | _ => false end.

(** The comments stored: the [COMMENT ON SCHEMA] statements that
    returned, in order. *)
Definition ev_comment_stored (ev : Event) : option (string * PgText) :=
  match ev with
  | EvCall c r =>
      match c in Call X return Resp X -> option (string * PgText) with
      | SqlCommentOnSchema _ schema text =>
          fun r => match r with Returned _ => Some (schema, text) | Thrown _ _ => None end
      | _ => fun _ => None
      end r
  end.
Definition comments_stored (tr : list Event) : list (string * PgText) :=
  omap ev_comment_stored tr.

(** The optional [error] entry of a schema comment. *)
Definition error_entry (error : option string) : list (string * string) :=
  match error with
  | Some err => if str_truthy err then [("error", err)] else []
  | None => []
  end.

(** ** The dataset writes of [pull] *)

Definition apply_cmd (config : Config) (conn_cfg : ConnCfg) (schema changeset : string)
  : list string :=
  [geodiff_exe config; "apply"; "--driver"; driver conn_cfg; conn_info conn_cfg;
   schema; changeset].
Definition rebase_cmd (config : Config) (conn_cfg : ConnCfg) (their conflicts : string)
  : list string :=
  [geodiff_exe config; "rebase-db"; "--driver"; driver conn_cfg; conn_info conn_cfg;
   base conn_cfg; modified conn_cfg; their; conflicts].

(** The dataset writes [pull] makes for the new version, given the
    temporary directory and the size of the [base]-to-[modified]
    changeset. *)
Definition pull_writes (config : Config) (conn_cfg : ConnCfg) (tmp_dir : string) (sz : Z)
  : list (list string) :=
  let their := os_path_join tmp_dir (project_name_of conn_cfg +:+ "-dbsync-pull-base2their") in
  let conflicts := os_path_join tmp_dir (project_name_of conn_cfg +:+ "-dbsync-pull-conflicts") in
  if bool_decide (sz ≠ 0)
  then [rebase_cmd config conn_cfg their conflicts;
        apply_cmd config conn_cfg (base conn_cfg) their]
  else [apply_cmd config conn_cfg (base conn_cfg) their;
        apply_cmd config conn_cfg (modified conn_cfg) their].

(** ** The comments [init] writes *)

Definition error_comment (conn_cfg : ConnCfg) (version : string) : string * PgText :=
  (base conn_cfg,
   json_dumps [("name", mergin_project conn_cfg); ("version", version);
               ("error", init_error_comment)]).
Definition version_comment (conn_cfg : ConnCfg) (version : string) : string * PgText :=
  (base conn_cfg,
   json_dumps [("name", mergin_project conn_cfg); ("version", version)]).

(** ** A concrete diff engine and concrete worlds

    Used to run the operations on explicit inputs.  A dataset is the list
    of its rows; a changeset records the rows it was computed from and
    the rows it leads to, and applies only to the former. *)

Definition toy_diff (a b : list string) : option (list string * list string) :=
  if bool_decide (a = b) then None else Some (a, b).

Definition toy_apply (d : list string) (c : option (list string * list string))
  : option (list string) :=
  match c with
  | None => Some d
  | Some (a, b) => if bool_decide (d = a) then Some b else None
  end.

Definition toy_rebase (b o : list string) (c : option (list string * list string))
  : option (list string * bool) :=
  match c with
  | None => Some (o, false)
  | Some (a, t) =>
      if bool_decide (b = a)
      then Some ((t ++ List.filter (fun r => negb (bool_decide (r ∈ b))) o)%list, false)
      else None
  end.

Definition toy_summary (c : option (list string * list string)) : list JsonEntry :=
  match c with
  | None => []
  | Some (a, b) => [SummaryEntry "rows" (len b) 0 (len a)]
  end.

Definition toy_details (c : option (list string * list string)) : list JsonEntry :=
  match c with
  | None => []
  | Some (a, b) => [DetailEntry "rows" "replace" (join_with "," b)]
  end.

(** With [lossy], a copy between different drivers drops the empty rows:
    an engine with a bug of the kind the self-check of [init] is for. *)
Definition toy (lossy : bool) : DiffEngine := {|
  Dataset := list string;
  Changeset := option (list string * list string);
  ge_diff := toy_diff;
  ge_apply := toy_apply;
  ge_rebase := toy_rebase;
  ge_copy := fun d1 d2 d =>
    Some (if lossy && negb (bool_decide (d1 = d2)) then List.filter str_truthy d else d);
  ge_size := fun c => match c with None => 0 | Some _ => 64 end;
  ge_summary := toy_summary;
  ge_details := toy_details;
  ge_log := fun cmd => match parse_geodiff cmd with
                       | GCopy _ _ _ _ => "Debug: copying dataset"
                       | _ => ""
                       end |}.

(** The configuration of the tests of the repository. *)
Definition conn0 : ConnCfg := {|
  driver := "postgres"; conn_info := ""; modified := "mergin_main"; base := "mergin_base";
  mergin_project := "john/dbsync"; sync_file := "sync.gpkg" |}.

Definition config0 : Config := {|
  mergin := {| url := "https://app.merginmaps.com"; username := "john";
               password := Some "secret" |};
  working_dir := "/tmp/working_project";
  geodiff_exe := "geodiff";
  connections := [conn0] |}.

Definition mc0 : MerginClientObj :=
  {| mc_url := "https://app.merginmaps.com"; mc_login := "john" |}.

Definition work_dir0 : string := "/tmp/working_project/dbsync".

(** A world: the project [john/dbsync] with the given versions on the
    server, the working directory at version [local] with the working
    file [gpkg], and the given schemas and comments in the database. *)
Definition make_world (lossy : bool) (requests : nat)
    (versions : list (string * list (string * list string)))
    (local : string) (base_file gpkg : list string)
    (schemas : gmap string (list string)) (comments : gmap string PgText)
  : World (toy lossy) := {|
  w_fs := <[work_path work_dir0 "sync.gpkg" := FGpkg (toy lossy) gpkg]>
            (checkout (toy lossy) work_dir0 "john/dbsync" local [("sync.gpkg", base_file)]
               {[work_dir0 := FDir (toy lossy)]});
  w_tmpdir := "/tmp";
  w_letters := ["abcdefgh"; "ijklmnop"; "qrstuvwx"];
  w_getpass := "secret";
  w_db_up := true;
  w_schemas := schemas;
  w_comments := comments;
  w_requests := requests;
  w_password := "secret";
  w_geodiff_lib := true;
  w_projects := {["john/dbsync" := versions]} |}.

Definition rows1 : list string := ["a"; "b"].
Definition rows2 : list string := ["a"; "b"; "c"].
Definition rows3 : list string := ["a"; "b"; "d"].

Definition comment_v1 : PgText :=
  JsonObjectText [("name", "john/dbsync"); ("version", "v1")].
Definition comment_failed : PgText :=
  JsonObjectText [("name", "john/dbsync"); ("version", "v1");
                  ("error", init_error_comment)].

(** In sync with the server at [v1], with a row added in [modified]. *)
Definition world_db_edit (requests : nat) : World (toy false) :=
  make_world false requests [("v1", [("sync.gpkg", rows1)])] "v1" rows1 rows1
    {["mergin_base" := rows1; "mergin_main" := rows2]} {["mergin_base" := comment_v1]}.

(** The same, [base] carrying the error annotation of a failed [init]. *)
Definition world_tagged : World (toy false) :=
  make_world false 100 [("v1", [("sync.gpkg", rows1)])] "v1" rows1 rows1
    {["mergin_base" := rows1; "mergin_main" := rows2]} {["mergin_base" := comment_failed]}.

(** The same as [world_db_edit], the working file edited by hand. *)
Definition world_pending : World (toy false) :=
  make_world false 100 [("v1", [("sync.gpkg", rows1)])] "v1" rows1 rows3
    {["mergin_base" := rows1; "mergin_main" := rows2]} {["mergin_base" := comment_v1]}.

(** Version [v2] on the server, the working directory and the database
    still at [v1]; no edits in the database, or a row added. *)
Definition world_behind (main : list string) : World (toy false) :=
  make_world false 100 [("v2", [("sync.gpkg", rows3)]); ("v1", [("sync.gpkg", rows1)])]
    "v1" rows1 rows1
    {["mergin_base" := rows1; "mergin_main" := main]} {["mergin_base" := comment_v1]}.

(** In sync and nothing to do. *)
Definition world_synced : World (toy false) :=
  make_world false 100 [("v1", [("sync.gpkg", rows1)])] "v1" rows1 rows1
    {["mergin_base" := rows1; "mergin_main" := rows1]} {["mergin_base" := comment_v1]}.

(** Before [init-from-gpkg]: the project downloaded, an empty database. *)
Definition world_fresh (lossy : bool) (gpkg : list string) : World (toy lossy) :=
  make_world lossy 100 [("v1", [("sync.gpkg", gpkg)])] "v1" gpkg gpkg ∅ ∅.

(** Before [init-from-db]: the [modified] schema filled, no [base] schema,
    a project without files on the server, nothing downloaded. *)
Definition world_db_only : World (toy false) := {|
  w_fs := ∅;
  w_tmpdir := "/tmp";
  w_letters := ["abcdefgh"; "ijklmnop"; "qrstuvwx"];
  w_getpass := "secret";
  w_db_up := true;
  w_schemas := {["mergin_main" := rows2]};
  w_comments := ∅;
  w_requests := 100;
  w_password := "secret";
  w_geodiff_lib := true;
  w_projects := {["john/dbsync" := [("v1", [])]]} |}.

(** Version [v2] on the server, the connection lost after one request. *)
Definition world_behind_offline : World (toy false) :=
  make_world false 1 [("v2", [("sync.gpkg", rows3)]); ("v1", [("sync.gpkg", rows1)])]
    "v1" rows1 rows1
    {["mergin_base" := rows1; "mergin_main" := rows1]} {["mergin_base" := comment_v1]}.

(** A server that does not answer. *)
Definition world_offline : World (toy false) :=
  make_world false 0 [("v1", [("sync.gpkg", rows1)])] "v1" rows1 rows1
    {["mergin_base" := rows1; "mergin_main" := rows1]} {["mergin_base" := comment_v1]}.

(** A configuration without a working directory, and a pair whose project
    identifier has no namespace. *)
Definition config_no_dir : Config := {|
  mergin := mergin config0; working_dir := ""; geodiff_exe := "geodiff";
  connections := [conn0] |}.
Definition conn_no_slash : ConnCfg := {|
  driver := "postgres"; conn_info := ""; modified := "mergin_main"; base := "mergin_base";
  mergin_project := "dbsync"; sync_file := "sync.gpkg" |}.

(** * Properties *)

(** ** Running programs: basic equations *)

Section RunFacts.

Context (E : Env).

Lemma run_bind {A B} (p : Prog A) (f : A -> Prog B) (s : env_state E) :
  run E (bind p f) s =
  match outcome (run E p s) with
  | Done a =>
      let r2 := run E (f a) (final (run E p s)) in
      MkRun (outcome r2) (final r2) (trace (run E p s) ++ trace r2)
            (output (run E p s) ++ output r2)
  | Failed e =>
      MkRun (Failed e) (final (run E p s)) (trace (run E p s)) (output (run E p s))
  end.
Proof.
  revert s; induction p as [a|e|msg k IH|X c k]; intros s; cbn [bind run].
  - cbn. destruct (run E (f a) s); reflexivity.
  - reflexivity.
  - rewrite IH. unfold printed; cbn.
    destruct (outcome (run E k s)), msg; reflexivity.
  - rewrite H. unfold logged; cbn.
    destruct (outcome (run E (k _) _)); reflexivity.
Qed.

Lemma run_try_except {A} (p : Prog A) (h : Exn -> option (Prog A)) (s : env_state E) :
  run E (try_except p h) s =
  match outcome (run E p s) with
  | Done a => run E p s
  | Failed e =>
      match h e with
      | Some q =>
          let r2 := run E q (final (run E p s)) in
          MkRun (outcome r2) (final r2) (trace (run E p s) ++ trace r2)
                (output (run E p s) ++ output r2)
      | None => run E p s
      end
  end.
Proof.
  revert s; induction p as [a|e|msg k IH|X c k]; intros s; cbn [try_except run].
  - reflexivity.
  - cbn. destruct (h e) as [q|]; [|reflexivity]. cbn. destruct (run E q s); reflexivity.
  - rewrite IH. unfold printed; cbn.
    destruct (outcome (run E k s)) as [a|e] eqn:Ho; [rewrite Ho; reflexivity|].
    destruct (h e); [destruct msg; reflexivity|]. rewrite Ho; reflexivity.
  - rewrite H. unfold logged; cbn.
    destruct (outcome (run E (k _) _)) as [a|e] eqn:Ho; [rewrite Ho; reflexivity|].
    destruct (h e); [reflexivity|]. rewrite Ho; reflexivity.
Qed.

End RunFacts.

(** Symbolic execution: [run_simpl] unfolds the run up to the next call,
    [run_step] splits the answer of the environment to it. *)
Ltac run_simpl :=
  cbn [run bind try_except call print print_when logged printed outcome final trace
       output fst snd app negb andb orb except_ClientError except_DbSyncError
       except_PsycopgError except_ConfigError except_LoginError].

Ltac run_step E :=
  run_simpl;
  match goal with
  | |- context [env_handle E ?X ?c ?s] =>
      let r := fresh "r" in
      let s' := fresh "s" in
      destruct (env_handle E X c s) as [r s'];
      destruct r
  end;
  run_simpl.

Section RunTactics.

Context (E : Env).

Lemma run_bind_assoc {A B C} (p : Prog A) (f : A -> Prog B) (g : B -> Prog C)
    (s : env_state E) :
  run E (bind (bind p f) g) s = run E (bind p (fun x => bind (f x) g)) s.
Proof.
  revert s; induction p as [a|e|msg k IH|X c k]; intros s; cbn [bind run]; auto.
  - rewrite IH; reflexivity.
  - rewrite H; reflexivity.
Qed.

Lemma run_no_calls {A} (p : Prog A) (s : env_state E) :
  no_calls p -> final (run E p s) = s /\ trace (run E p s) = [].
Proof.
  induction p as [a|e|msg k IH|X c k]; cbn; intros Hp; auto. contradiction.
Qed.

End RunTactics.

Lemma no_calls_bind {A B} (p : Prog A) (f : A -> Prog B) :
  no_calls p -> (forall a, no_calls (f a)) -> no_calls (bind p f).
Proof. induction p; cbn; auto. Qed.

Lemma no_calls_for_each {A} (l : list A) (body : A -> Prog unit) :
  (forall x, no_calls (body x)) -> no_calls (for_each l body).
Proof.
  intros Hb; induction l as [|x l IH]; cbn; [exact I|].
  apply no_calls_bind; auto.
Qed.

Lemma no_calls_print_changes_summary summary label :
  no_calls (_print_changes_summary summary label).
Proof.
  unfold _print_changes_summary. cbn. apply no_calls_for_each.
  intros [t i u d|t ty ch]; cbn; exact I.
Qed.

Lemma no_calls_print_mergin_changes d : no_calls (_print_mergin_changes d).
Proof.
  unfold _print_mergin_changes.
  repeat (apply no_calls_bind; [|intros _]); apply no_calls_for_each; intros; exact I.
Qed.

(** Where the run is stuck on something other than a call: nested binds
    are reassociated, optional prints and printing loops are stepped
    over, and a branch on an unknown value is split. *)
Ltac run_skip_loop E p f s lem :=
  let Hf := fresh "Hf" in
  let Ht := fresh "Ht" in
  rewrite (run_bind E p f s);
  destruct (run_no_calls E p s lem) as [Hf Ht];
  rewrite Hf, Ht; clear Hf Ht;
  destruct (outcome (run E p s)).

Ltac run_tail_loop E p s lem :=
  let Hf := fresh "Hf" in
  let Ht := fresh "Ht" in
  destruct (run_no_calls E p s lem) as [Hf Ht];
  rewrite ?Hf, ?Ht; clear Hf Ht;
  destruct (outcome (run E p s)).

Ltac stuck_inner p :=
  lazymatch p with
  | bind ?q _ => stuck_inner q
  | try_except ?q _ => stuck_inner q
  | dict_get _ _ => unfold dict_get
  | list_index _ _ => unfold list_index
  | (if negb ?b then _ else _) => destruct b eqn:?; cbn [negb]
  | (if ?b then _ else _) => destruct b eqn:?
  | (match ?o with Some _ => _ | None => _ end) =>
      lazymatch o with
      | match ?k with
        | ClientError => _ | LoginError => _ | PsycopgError => _ | ConfigError => _
        | KeyError => _ | IndexError => _ | OSError => _
        end => destruct k
      | _ => destruct o eqn:?
      end
  | (match ?l with [] => _ | _ :: _ => _ end) => destruct l eqn:?
  end.

Ltac stuck_head E p s :=
  lazymatch p with
  | bind (bind ?q ?f) ?g => rewrite (run_bind_assoc E q f g s)
  | bind (_print_changes_summary ?l ?lbl) ?f =>
      run_skip_loop E (_print_changes_summary l lbl) f s
                    (no_calls_print_changes_summary l lbl)
  | bind (_print_mergin_changes ?d) ?f =>
      run_skip_loop E (_print_mergin_changes d) f s (no_calls_print_mergin_changes d)
  | _print_changes_summary ?l ?lbl =>
      run_tail_loop E (_print_changes_summary l lbl) s (no_calls_print_changes_summary l lbl)
  | _print_mergin_changes ?d =>
      run_tail_loop E (_print_mergin_changes d) s (no_calls_print_mergin_changes d)
  | _ => stuck_inner p
  end.

Ltac run_branch E :=
  run_simpl;
  match goal with
  | |- context [run E ?p ?s] => stuck_head E p s
  end; run_simpl.

Ltac run_all E := repeat (first [run_step E | run_branch E]).

(** The functions of [dbsync.py] that are unfolded during symbolic
    execution (the printing loops stay folded). *)
Ltac unfold_dbsync :=
  unfold run_op, init, pull, push, status,
    init_working_dir, init_from_gpkg, init_from_db,
    init_create_from_gpkg, init_create_from_db, db_proj_info_version,
    _compare_datasets, _geodiff_create_changeset_dr, _geodiff_make_copy,
    _geodiff_list_changes_summary, _geodiff_list_changes_details,
    _geodiff_create_changeset, _geodiff_apply_changeset, _geodiff_rebase,
    fetch_server_version, project_short_name, _check_has_working_dir,
    _check_has_sync_file, _check_schema_exists, _get_project_version,
    _get_db_project_comment, _set_db_project_comment, _run_geodiff.
(** ** C10: [_run_geodiff] raises exactly on a non-zero exit status *)


(** ** C2: a failed upload leaves the database as it was *)

(** Against any environment: when the upload fails, [push] fails, and no
    call of the run writes to the database. *)
Lemma push_upload_failure_trace (E : Env) (config : Config) (conn_cfg : ConnCfg)
    (mc : MerginClientObj) (s : env_state E) :
  let r := run E (push config conn_cfg mc) s in
  existsb upload_failed (trace r) = true ->
  (exists e, outcome r = Failed e)
  /\ forallb (fun ev => negb (mutates_db ev)) (trace r) = true.
Proof.
  cbv zeta. unfold_dbsync. 
  run_all E.
  all: cbn [existsb upload_failed ev_upload orb]; try discriminate.
  all: intros _; split; [eexists; reflexivity|].
  all: try reflexivity.
Qed.

(** The functions of the model, unfolded for case analysis. *)
Ltac unfold_model :=
  unfold os_remove, os_path_getsize, shutil_copy, shutil_rmtree, random_letters,
    json_load_file, psycopg_connect, sql_comment_on_schema, sql_obj_description,
    mergin_client_new, mc_get_projects_by_names, mc_pull_project, mc_push_project,
    mc_download_project, mc_project_status, mc_project_info, mergin_project_new,
    mp_metadata, mp_get_push_changes, mp_get_pull_changes, with_server,
    geodiff_diff, geodiff_apply, geodiff_rebase, geodiff_copy, geodiff_as,
    write_dataset, create_dataset in *.

Section ModelFacts.
Context (G : DiffEngine).

Lemma write_dataset_sqlite name d (w : World G) :
  w_schemas G (write_dataset G "sqlite" name d w) = w_schemas G w
  /\ w_comments G (write_dataset G "sqlite" name d w) = w_comments G w.
Proof. split; reflexivity. Qed.

Lemma subprocess_frame_db cmd (w : World G) :
  geodiff_writes_db cmd = false ->
  w_schemas G (subprocess_run G cmd w).2 = w_schemas G w
  /\ w_comments G (subprocess_run G cmd w).2 = w_comments G w.
Proof.
  unfold geodiff_writes_db, subprocess_run.
  destruct (parse_geodiff cmd); intros Hm; unfold_model.
  all: try (apply negb_false_iff, bool_decide_eq_true in Hm; subst).
  all: repeat case_match; cbn; auto; discriminate.
Qed.

Lemma model_frame_db {X} (c : Call X) (w : World G) :
  mutates_db (EvCall c (model_handle G X c w).1) = false ->
  w_schemas G (model_handle G X c w).2 = w_schemas G w
  /\ w_comments G (model_handle G X c w).2 = w_comments G w.
Proof.
  destruct c; cbn; try discriminate; intros Hm; auto.
  7: apply subprocess_frame_db; assumption.
  all: unfold_model; repeat case_match; cbn; auto.
Qed.

(** A run whose trace has no event that changes the database leaves the
    schemas and their comments as they were. *)
Lemma model_run_frame_db {A} (p : Prog A) (w : World G) :
  forallb (fun ev => negb (mutates_db ev)) (trace (run (ModelEnv G) p w)) = true ->
  w_schemas G (final (run (ModelEnv G) p w)) = w_schemas G w
  /\ w_comments G (final (run (ModelEnv G) p w)) = w_comments G w.
Proof.
  revert w; induction p as [a|e|msg k IH|X c k IH]; intros w; cbn [run]; auto.
  - apply IH.
  - cbn [logged trace final forallb env_handle ModelEnv].
    intros [Hc Hk]%andb_prop. apply negb_true_iff in Hc.
    destruct (model_frame_db c w Hc) as [Hs Hm].
    destruct (IH _ _ Hk) as [Hs' Hm'].
    split; [rewrite Hs'; exact Hs|rewrite Hm'; exact Hm].
Qed.


(** C2. For every push in which the upload of the new file version fails:
    the push fails, not a single call of the run writes to the database
    (the changeset is not applied to [base], no comment is written), and
    the schemas and their comments are what they were before the push. *)
Theorem push_upload_failure_keeps_base (config : Config) (conn_cfg : ConnCfg)
    (mc : MerginClientObj) (w : World G) :
  let r := run (ModelEnv G) (push config conn_cfg mc) w in
  existsb upload_failed (trace r) = true ->
  (exists e, outcome r = Failed e)
  /\ forallb (fun ev => negb (mutates_db ev)) (trace r) = true
  /\ w_schemas G (final r) = w_schemas G w
  /\ w_comments G (final r) = w_comments G w.
Proof.
  intros r Hup.
  destruct (push_upload_failure_trace (ModelEnv G) config conn_cfg mc w Hup) as [Hf Hn].
  split; [exact Hf|]. split; [exact Hn|].
  apply model_run_frame_db. exact Hn.
Qed.

End ModelFacts.

Lemma push_upload_failure_keeps_base_witness :
  let r := run (ModelEnv (toy false)) (push config0 conn0 mc0) (world_db_edit 1) in
  existsb upload_failed (trace r) = true
  /\ (exists e, outcome r = Failed e)
  /\ forallb (fun ev => negb (mutates_db ev)) (trace r) = true
  /\ w_schemas _ (final r) = w_schemas _ (world_db_edit 1)
  /\ w_comments _ (final r) = w_comments _ (world_db_edit 1).
Proof.
  split; [vm_compute; reflexivity|].
  apply (push_upload_failure_keeps_base (toy false) config0 conn0 mc0 (world_db_edit 1)).
  vm_compute; reflexivity.
Defined.

(** ** Stepping over [_compare_datasets] *)

(** What [_compare_datasets] does and returns: only local calls; the list
    it returns is the one of the listing it loaded, and when it fails the
    listing, if one was loaded, has no such list. *)
Lemma compare_datasets_run (E : Env) (config : Config)
    (d1 c1 src d2 c2 dst : string) (summary_only : bool) (s : env_state E) :
  let r := run E (_compare_datasets config d1 c1 src d2 c2 dst summary_only) s in
  forallb local_ev (trace r) = true
  /\ match outcome r with
     | Done l =>
         exists doc, listings (trace r) = [doc]
           /\ dict_lookup doc (if summary_only then "geodiff_summary" else "geodiff") = Some l
     | Failed e =>
         forall doc, last (listings (trace r)) = Some doc ->
           dict_lookup doc (if summary_only then "geodiff_summary" else "geodiff") = None
     end.
Proof.
  cbv zeta. unfold_dbsync. destruct summary_only.
  all: run_all E.
  all: split; [reflexivity|].
  all: try (eexists; split; [reflexivity|assumption]).
  all: cbn -[String.append os_path_join]; intros doc Hdoc; try discriminate.
  all: injection Hdoc as <-; assumption.
Qed.

Lemma list_changes_summary_run (E : Env) (config : Config) (changeset : string)
    (s : env_state E) :
  let r := run E (_geodiff_list_changes_summary config changeset) s in
  forallb local_ev (trace r) = true
  /\ match outcome r with
     | Done l =>
         exists doc, listings (trace r) = [doc]
           /\ dict_lookup doc "geodiff_summary" = Some l
     | Failed e => True
     end.
Proof.
  cbv zeta. unfold_dbsync.
  run_all E.
  all: split; [reflexivity|]; try exact I.
  all: eexists; split; [reflexivity|assumption].
Qed.

(** Local calls are invisible to the observations on traces. *)
Lemma omap_local_app {Y} (F : Event -> option Y) (t u : list Event) :
  (forall ev, local_ev ev = true -> F ev = None) ->
  forallb local_ev t = true -> omap F (t ++ u)%list = omap F u.
Proof.
  intros HF; induction t as [|ev t IH]; cbn; [reflexivity|].
  intros [Hev Ht]%andb_prop. rewrite (HF ev Hev). auto.
Qed.

Lemma forallb_local_app (Q : Event -> bool) (t u : list Event) :
  (forall ev, local_ev ev = true -> Q ev = true) ->
  forallb local_ev t = true -> forallb Q (t ++ u)%list = forallb Q u.
Proof.
  intros HQ; induction t as [|ev t IH]; cbn; [reflexivity|].
  intros [Hev Ht]%andb_prop. rewrite (HQ ev Hev). auto.
Qed.

Lemma existsb_local_app (Q : Event -> bool) (t u : list Event) :
  (forall ev, local_ev ev = true -> Q ev = false) ->
  forallb local_ev t = true -> existsb Q (t ++ u)%list = existsb Q u.
Proof.
  intros HQ; induction t as [|ev t IH]; cbn; [reflexivity|].
  intros [Hev Ht]%andb_prop. rewrite (HQ ev Hev). auto.
Qed.

Lemma omap_local {Y} (F : Event -> option Y) (t : list Event) :
  (forall ev, local_ev ev = true -> F ev = None) ->
  forallb local_ev t = true -> omap F t = [].
Proof.
  intros HF Ht. rewrite <- (app_nil_r t). rewrite (omap_local_app F t [] HF Ht). reflexivity.
Qed.

Lemma forallb_local (Q : Event -> bool) (t : list Event) :
  (forall ev, local_ev ev = true -> Q ev = true) ->
  forallb local_ev t = true -> forallb Q t = true.
Proof.
  intros HQ Ht. rewrite <- (app_nil_r t). rewrite (forallb_local_app Q t [] HQ Ht). reflexivity.
Qed.

Lemma existsb_local (Q : Event -> bool) (t : list Event) :
  (forall ev, local_ev ev = true -> Q ev = false) ->
  forallb local_ev t = true -> existsb Q t = false.
Proof.
  intros HQ Ht. rewrite <- (app_nil_r t). rewrite (existsb_local_app Q t [] HQ Ht). reflexivity.
Qed.

Ltac local_case :=
  let ev := fresh "ev" in
  let c := fresh "c" in
  let r := fresh "r" in
  intros ev; destruct ev as [? c r]; destruct c; cbn; try discriminate; try reflexivity;
  try (destruct (parse_geodiff _); cbn; try discriminate; reflexivity).

Lemma local_not_pending ev : local_ev ev = true -> ev_pending ev = None.
Proof. revert ev; local_case. Qed.
Lemma local_not_mutating ev : local_ev ev = true -> negb (mutates_db ev) = true.
Proof.
  revert ev; local_case. unfold geodiff_writes_db.
  destruct (parse_geodiff cmd); cbn; try discriminate; reflexivity.
Qed.
Lemma local_not_comment_write ev : local_ev ev = true -> ev_comment_write ev = None.
Proof. revert ev; local_case. Qed.
Lemma local_not_comment_read ev : local_ev ev = true -> ev_comment_read ev = None.
Proof. revert ev; local_case. Qed.
Lemma local_not_metadata ev : local_ev ev = true -> ev_metadata ev = None.
Proof. revert ev; local_case. Qed.
Lemma local_not_copy ev : local_ev ev = true -> is_copy ev = false.
Proof.
  revert ev; local_case.
Qed.
Lemma local_not_server ev : local_ev ev = true -> negb (contacts_server ev) = true.
Proof. revert ev; local_case. Qed.

(** The run of a folded [_compare_datasets] is replaced by its outcome,
    its final state and its trace of local calls. *)
Ltac run_compare E :=
  run_simpl;
  match goal with
  | |- context [run E (bind (_compare_datasets ?cfg ?a1 ?a2 ?a3 ?a4 ?a5 ?a6 ?a7) ?k) ?s] =>
      let Hl := fresh "Hlocal" in
      let Ho := fresh "Hlist" in
      let o := fresh "cmp_list" in
      let e := fresh "cmp_exn" in
      let s' := fresh "cmp_state" in
      let t := fresh "cmp_trace" in
      let out := fresh "cmp_output" in
      rewrite (run_bind E (_compare_datasets cfg a1 a2 a3 a4 a5 a6 a7) k s);
      destruct (compare_datasets_run E cfg a1 a2 a3 a4 a5 a6 a7 s) as [Hl Ho];
      destruct (run E (_compare_datasets cfg a1 a2 a3 a4 a5 a6 a7) s) as [[o|e] s' t out];
      cbn [outcome final trace output] in Hl, Ho |- *
  end;
  run_simpl.

Ltac run_listing E :=
  run_simpl;
  match goal with
  | |- context [run E (bind (_geodiff_list_changes_summary ?cfg ?cs) ?k) ?s] =>
      let Hl := fresh "Hlocal" in
      let Ho := fresh "Hlist" in
      let o := fresh "summary" in
      let e := fresh "sum_exn" in
      let s' := fresh "sum_state" in
      let t := fresh "sum_trace" in
      let out := fresh "sum_output" in
      rewrite (run_bind E (_geodiff_list_changes_summary cfg cs) k s);
      destruct (list_changes_summary_run E cfg cs s) as [Hl Ho];
      destruct (run E (_geodiff_list_changes_summary cfg cs) s) as [[o|e] s' t out];
      cbn [outcome final trace output] in Hl, Ho |- *
  end;
  run_simpl.

Ltac run_all2 E :=
  repeat (first [run_step E | run_compare E | run_listing E | run_branch E]).

(** The functions unfolded when [_compare_datasets] and
    [_geodiff_list_changes_summary] stay folded. *)
Ltac unfold_dbsync2 :=
  unfold run_op, init, pull, push, status,
    init_working_dir, init_from_gpkg, init_from_db,
    init_create_from_gpkg, init_create_from_db, db_proj_info_version,
    _geodiff_make_copy,
    _geodiff_create_changeset, _geodiff_apply_changeset, _geodiff_rebase,
    fetch_server_version, project_short_name, _check_has_working_dir,
    _check_has_sync_file, _check_schema_exists, _get_project_version,
    _get_db_project_comment, _set_db_project_comment, _run_geodiff.

(** ** C5: the guard on pending local changes *)

Ltac guard_leaves :=
  unfold pending_query;
  repeat (cbn -[String.append os_path_join run];
          rewrite ?app_nil_r;
          try rewrite (omap_local_app ev_pending) by (exact local_not_pending || assumption);
          try rewrite (omap_local ev_pending) by (exact local_not_pending || assumption));
  try discriminate;
  intros [= <-] ?; try congruence.

Lemma guard_init (E : Env) (config : Config) (conn_cfg : ConnCfg)
    (mc : MerginClientObj) (from_gpkg : bool) (s : env_state E) (d : ChangesDict) :
  let r := run E (init config conn_cfg mc from_gpkg) s in
  pending_query (trace r) = Some d -> has_changes d = true ->
  (exists msg, outcome r = Failed (DbSyncError msg))
  /\ forallb (fun ev => negb (mutates_db ev)) (trace r) = true.
Proof.
  cbv zeta.
  unfold init, init_working_dir, project_short_name, _check_has_working_dir,
    _check_schema_exists, _get_project_version, _get_db_project_comment.
  run_all2 E.
  all: guard_leaves.
  all: split; [eexists; reflexivity|reflexivity].
Qed.

Lemma guard_pull (E : Env) (config : Config) (conn_cfg : ConnCfg)
    (mc : MerginClientObj) (s : env_state E) (d : ChangesDict) :
  let r := run E (pull config conn_cfg mc) s in
  pending_query (trace r) = Some d -> has_changes d = true ->
  (exists msg, outcome r = Failed (DbSyncError msg))
  /\ forallb (fun ev => negb (mutates_db ev)) (trace r) = true.
Proof.
  cbv zeta.
  unfold pull, project_short_name, _check_has_working_dir, _check_has_sync_file,
    fetch_server_version.
  run_all2 E.
  all: guard_leaves.
  all: split; [eexists; reflexivity|reflexivity].
Qed.

Lemma guard_push (E : Env) (config : Config) (conn_cfg : ConnCfg)
    (mc : MerginClientObj) (s : env_state E) (d : ChangesDict) :
  let r := run E (push config conn_cfg mc) s in
  pending_query (trace r) = Some d -> has_changes d = true ->
  (exists msg, outcome r = Failed (DbSyncError msg))
  /\ forallb (fun ev => negb (mutates_db ev)) (trace r) = true.
Proof.
  cbv zeta.
  unfold push, project_short_name, _check_has_working_dir, _check_has_sync_file,
    fetch_server_version, _check_schema_exists.
  run_all2 E.
  all: guard_leaves.
  all: split; [eexists; reflexivity|reflexivity].
Qed.

Lemma guard_status (E : Env) (config : Config) (conn_cfg : ConnCfg)
    (mc : MerginClientObj) (s : env_state E) (d : ChangesDict) :
  let r := run E (status config conn_cfg mc) s in
  pending_query (trace r) = Some d -> has_changes d = true ->
  (exists msg, outcome r = Failed (DbSyncError msg))
  /\ forallb (fun ev => negb (mutates_db ev)) (trace r) = true
  /\ forallb (fun ev => negb (contacts_server ev)) (trace r) = true.
Proof.
  cbv zeta.
  unfold status, project_short_name, _check_has_working_dir, _check_has_sync_file,
    _check_schema_exists.
  run_all2 E.
  all: guard_leaves.
  all: split; [eexists; reflexivity|split; reflexivity].
Qed.




(** ** C9: temporary files *)

Ltac tmp_leaves :=
  cbn -[String.append os_path_join];
  repeat split; auto.

Lemma tmp_files_push (E : Env) (config : Config) (conn_cfg : ConnCfg)
    (mc : MerginClientObj) (s : env_state E) :
  let r := run E (push config conn_cfg mc) s in
  fresh_writes [] (trace r) /\ listings_removed (trace r).
Proof.
  cbv zeta. unfold_dbsync.
  run_all E.
  all: tmp_leaves.
Qed.

Lemma tmp_files_status (E : Env) (config : Config) (conn_cfg : ConnCfg)
    (mc : MerginClientObj) (s : env_state E) :
  let r := run E (status config conn_cfg mc) s in
  fresh_writes [] (trace r) /\ listings_removed (trace r).
Proof.
  cbv zeta. unfold_dbsync.
  run_all E.
  all: tmp_leaves.
Qed.



(** ** C6: what [pull] applies, and in which order *)

Lemma local_not_write ev :
  local_ev ev = true ->
  match ev_subprocess ev with
  | Some (cmd, _) => if is_dataset_write cmd then Some cmd else None
  | None => None
  end = None.
Proof.
  revert ev; local_case. unfold is_dataset_write.
  destruct (parse_geodiff cmd); cbn; try discriminate; reflexivity.
Qed.


(** The two cases, on concrete worlds. *)
Example pull_without_rebase :
  dataset_writes (trace (run (ModelEnv (toy false)) (pull config0 conn0 mc0)
                             (world_behind rows1)))
  = [["geodiff"; "apply"; "--driver"; "postgres"; ""; "mergin_base";
      "/tmp/dbsync-dbsync-pull-base2their"];
     ["geodiff"; "apply"; "--driver"; "postgres"; ""; "mergin_main";
      "/tmp/dbsync-dbsync-pull-base2their"]].
Proof. vm_compute. reflexivity. Qed.

Example pull_with_rebase :
  dataset_writes (trace (run (ModelEnv (toy false)) (pull config0 conn0 mc0)
                             (world_behind rows2)))
  = [["geodiff"; "rebase-db"; "--driver"; "postgres"; ""; "mergin_base"; "mergin_main";
      "/tmp/dbsync-dbsync-pull-base2their"; "/tmp/dbsync-dbsync-pull-conflicts"];
     ["geodiff"; "apply"; "--driver"; "postgres"; ""; "mergin_base";
      "/tmp/dbsync-dbsync-pull-base2their"]].
Proof. vm_compute. reflexivity. Qed.

(** ** C8: a pull without changes on the server *)

(** Symbolic execution in the model. *)
Ltac model_simpl :=
  cbn [run bind try_except call print print_when logged printed outcome final trace
       output fst snd app negb andb orb env_handle ModelEnv model_handle
       except_ClientError except_DbSyncError except_PsycopgError
       except_ConfigError except_LoginError].

Section PullNoop.
Context (G : DiffEngine).

Lemma read_meta_set_requests dir n (w : World G) :
  read_meta G dir (set_requests G n w) = read_meta G dir w.
Proof. reflexivity. Qed.

Lemma latest_set_requests project n (w : World G) :
  latest G project (set_requests G n w) = latest G project w.
Proof. reflexivity. Qed.

(** C8. For every pull invoked when the version of the project on the
    server equals the version of the working directory: the files (the
    working copy among them), the schemas, their comments and the server
    are what they were; no call of the run writes to the database or to
    a dataset. *)
Theorem pull_noop (config : Config) (conn_cfg : ConnCfg) (mc : MerginClientObj)
    (w : World G) (pn : string) (md : Metadata) (tracked : list string)
    (files : list (string * Dataset G)) :
  split_slash (mergin_project conn_cfg) !! 1%nat = Some pn ->
  read_meta G (os_path_join (working_dir config) pn) w = Some (md, tracked) ->
  latest G (md_name md) w = Some (md_version md, files) ->
  let r := run (ModelEnv G) (pull config conn_cfg mc) w in
  w_fs G (final r) = w_fs G w
  /\ w_schemas G (final r) = w_schemas G w
  /\ w_comments G (final r) = w_comments G w
  /\ w_projects G (final r) = w_projects G w
  /\ forallb (fun ev => negb (mutates_db ev)) (trace r) = true
  /\ dataset_writes (trace r) = [].
Proof.
  intros Hpn Hmeta Hlatest. cbv zeta.
  unfold pull, project_short_name, list_index, _check_has_working_dir, _check_has_sync_file,
    fetch_server_version.
  rewrite Hpn.
  repeat first
    [ progress model_simpl
    | progress (unfold mergin_project_new, mp_metadata, mp_get_push_changes,
                 mc_get_projects_by_names, with_server, dict_get;
                cbn [mp_dir mp_geodiff omap list_omap dict_lookup])
    | rewrite read_meta_set_requests
    | rewrite latest_set_requests
    | rewrite Hmeta
    | rewrite Hlatest
    | rewrite bool_decide_eq_true_2 by reflexivity
    | match goal with
      | |- context [if negb ?b then _ else _] => destruct b eqn:?
      | |- context [match w_requests G w with O => _ | S _ => _ end] =>
          destruct (w_requests G w)
      | |- context [if has_changes ?d then _ else _] => destruct (has_changes d) eqn:?
      end ].
  all: repeat split; reflexivity.
Qed.
End PullNoop.

Lemma pull_noop_witness :
  let r := run (ModelEnv (toy false)) (pull config0 conn0 mc0) world_synced in
  w_fs _ (final r) = w_fs _ world_synced
  /\ w_schemas _ (final r) = w_schemas _ world_synced
  /\ w_comments _ (final r) = w_comments _ world_synced
  /\ w_projects _ (final r) = w_projects _ world_synced
  /\ forallb (fun ev => negb (mutates_db ev)) (trace r) = true
  /\ dataset_writes (trace r) = [].
Proof.
  apply (pull_noop (toy false) config0 conn0 mc0 world_synced "dbsync"
           {| md_name := "john/dbsync"; md_version := "v1" |} ["sync.gpkg"]
           [("sync.gpkg", rows1)]); vm_compute; reflexivity.
Defined.

(** ** C3: the self-check of [init-from-gpkg] *)

Lemma len_zero {A} (l : list A) : bool_decide (len l ≠ 0) = false -> l = [].
Proof.
  intros H. apply bool_decide_eq_false in H. destruct l; [reflexivity|].
  exfalso; apply H. unfold len; cbn. lia.
Qed.

Lemma init_error_comment_truthy : str_truthy init_error_comment = true.
Proof. reflexivity. Qed.

Ltac selfcheck_leaf :=
  unfold error_comment, version_comment, selfcheck_entries, comment_writes, last_version;
  rewrite ?init_error_comment_truthy;
  cbn -[String.append os_path_join];
  repeat match goal with
         | H : bool_decide (len _ ≠ 0) = false |- _ => apply len_zero in H; subst
         end.

(** The creation of the schemas from the GeoPackage, on its own. *)
Lemma create_from_gpkg_run (E : Env) (config : Config) (conn_cfg : ConnCfg)
    (conn : Connection) (gpkg_full_path local_version : string) (s : env_state E) :
  let r := run E (init_create_from_gpkg config conn_cfg conn gpkg_full_path local_version) s in
  omap ev_metadata (trace r) = []
  /\ (forall l, selfcheck_entries (trace r) = Some l -> l ≠ [] ->
      comment_writes (trace r) = [error_comment conn_cfg local_version]
      /\ exists e, outcome r = Failed e)
  /\ (outcome r = Done tt ->
      selfcheck_entries (trace r) = Some []
      /\ comment_writes (trace r) = [version_comment conn_cfg local_version]).
Proof.
  cbv zeta. unfold_dbsync.
  run_all E.
  all: selfcheck_leaf.
  all: split; [reflexivity|split].
  all: try (intros l Hl Hne; try discriminate).
  all: try (intros Ho; try discriminate).
  all: try (split; [reflexivity|eexists; reflexivity]).
  all: try (split; [assumption|reflexivity]).
  all: try congruence.
Qed.



(** The two outcomes, on concrete worlds: an engine that copies
    faithfully, and one that loses rows. *)
Example init_selfcheck_passes :
  let r := run (ModelEnv (toy false)) (init config0 conn0 mc0 true)
               (world_fresh false ["a"; ""; "b"]) in
  outcome r = Done tt
  /\ selfcheck_entries (trace r) = Some []
  /\ w_comments _ (final r) !! "mergin_base" = Some comment_v1.
Proof. repeat split; vm_compute; reflexivity. Qed.

Example init_selfcheck_fails :
  let r := run (ModelEnv (toy true)) (init config0 conn0 mc0 true)
               (world_fresh true ["a"; ""; "b"]) in
  outcome r = Failed (DbSyncError init_error_message)
  /\ selfcheck_entries (trace r) = Some [DetailEntry "rows" "replace" "a,b"]
  /\ w_comments _ (final r) !! "mergin_base" = Some comment_failed.
Proof. repeat split; vm_compute; reflexivity. Qed.

(** ** C4: [init] on a schema tagged with an error *)




(** ** C7: push convergence *)

Section ChangesetFacts.
Context (G : DiffEngine).

Lemma kept_refl (fs : gmap string (File G)) : changesets_kept G fs fs.
Proof. intros p c H; exact H. Qed.

Lemma kept_trans (fs1 fs2 fs3 : gmap string (File G)) :
  changesets_kept G fs1 fs2 -> changesets_kept G fs2 fs3 -> changesets_kept G fs1 fs3.
Proof. intros H12 H23 p c H. apply H12, H23, H. Qed.

Lemma kept_insert (fs : gmap string (File G)) k f :
  is_changeset G f = false -> changesets_kept G fs (<[k := f]> fs).
Proof.
  intros Hf p c. unfold changeset_at.
  destruct (decide (k = p)) as [->|Hne].
  - rewrite lookup_insert_eq. destruct f; try discriminate.
  - rewrite lookup_insert_ne by exact Hne. auto.
Qed.

Lemma kept_delete (fs : gmap string (File G)) k : changesets_kept G fs (delete k fs).
Proof.
  intros p c. unfold changeset_at.
  destruct (decide (k = p)) as [->|Hne].
  - rewrite lookup_delete_eq. discriminate.
  - rewrite lookup_delete_ne by exact Hne. auto.
Qed.

Lemma kept_filter (fs : gmap string (File G)) (P : string * File G -> Prop)
    `{forall x, Decision (P x)} :
  changesets_kept G fs (filter P fs).
Proof.
  intros p c. unfold changeset_at.
  destruct (filter P fs !! p) as [f|] eqn:Hf; [|discriminate].
  apply map_lookup_filter_Some in Hf as [Hf _]. rewrite Hf. auto.
Qed.

Lemma kept_checkout (fs : gmap string (File G)) dir project version files :
  changesets_kept G fs (checkout G dir project version files fs).
Proof.
  unfold checkout.
  eapply kept_trans; [|apply kept_insert; reflexivity].
  induction files as [|nf files IH]; cbn [foldr]; [apply kept_refl|].
  eapply kept_trans; [|apply kept_insert; reflexivity].
  eapply kept_trans; [|apply kept_insert; reflexivity].
  exact IH.
Qed.

Lemma kept_foldr (fs : gmap string (File G)) {Y} (l : list Y)
    (f : Y -> gmap string (File G) -> gmap string (File G)) :
  (forall y acc, changesets_kept G acc (f y acc)) ->
  changesets_kept G fs (foldr f fs l).
Proof.
  intros Hf. induction l as [|x l IH]; cbn [foldr]; [apply kept_refl|].
  eapply kept_trans; [exact IH|apply Hf].
Qed.

Ltac kept_step :=
  first [ apply kept_refl
        | apply kept_delete
        | apply kept_filter
        | apply kept_checkout
        | apply kept_insert; reflexivity
        | apply kept_foldr; intros
        | eapply kept_trans; [|first [apply kept_delete | apply kept_checkout
                                      | apply kept_insert; reflexivity]] ].

Lemma subprocess_frame_changesets cmd (w : World G) :
  match parse_geodiff cmd with GDiff _ _ _ _ _ => false | _ => true end = true ->
  changesets_kept G (w_fs G w) (w_fs G (subprocess_run G cmd w).2).
Proof.
  unfold subprocess_run. destruct (parse_geodiff cmd); intros Hc; try discriminate.
  all: unfold_model; repeat case_match; cbn; repeat kept_step.
Qed.

Lemma model_frame_changesets {X} (c : Call X) r (w : World G) :
  creates_changeset (EvCall c r) = false ->
  changesets_kept G (w_fs G w) (w_fs G (model_handle G X c w).2).
Proof.
  destruct c; cbn; try discriminate; intros Hc; try apply kept_refl.
  all: try (apply subprocess_frame_changesets; destruct (parse_geodiff _); done).
  all: unfold_model.
  all: repeat case_match; cbn; try discriminate; repeat kept_step.
Qed.

Lemma model_db_up {X} (c : Call X) (w : World G) :
  w_db_up G (model_handle G X c w).2 = w_db_up G w.
Proof.
  destruct c; cbn; try reflexivity.
  all: unfold subprocess_run; unfold_model; repeat case_match; cbn; congruence.
Qed.

(** What a call leaves as it was in the world of the model. *)
Lemma model_frame {X} (c : Call X) (w w' : World G) r :
  model_handle G X c w = (r, w') ->
  w_db_up G w' = w_db_up G w
  /\ (mutates_db (EvCall c r) = false ->
      w_schemas G w' = w_schemas G w /\ w_comments G w' = w_comments G w)
  /\ (creates_changeset (EvCall c r) = false ->
      changesets_kept G (w_fs G w) (w_fs G w')).
Proof.
  intros H.
  pose proof (model_db_up c w) as Hup.
  pose proof (model_frame_db G c w) as Hdb.
  pose proof (model_frame_changesets c r w) as Hcs.
  rewrite H in Hup, Hdb, Hcs. auto.
Qed.

Lemma diff_spec cmd drv b m cs res (w w' : World G) :
  model_handle G _ (SubprocessRun cmd) w = (Returned res, w') ->
  parse_geodiff cmd = GDiff drv b drv m cs ->
  drv <> "sqlite" ->
  returncode res = 0 ->
  exists db dm,
    w_schemas G w !! b = Some db /\ w_schemas G w !! m = Some dm
    /\ changeset_at G (w_fs G w') cs = Some (ge_diff G db dm).
Proof.
  cbn. unfold subprocess_run. intros H Hp Hdrv. rewrite Hp in H.
  unfold geodiff_diff, read_dataset in H.
  rewrite bool_decide_eq_false_2 in H by exact Hdrv.
  destruct (w_db_up G w); [|injection H as <- <-; discriminate].
  destruct (w_schemas G w !! b) as [db|]; [|injection H as <- <-; discriminate].
  destruct (w_schemas G w !! m) as [dm|]; [|injection H as <- <-; discriminate].
  injection H as <- <-. intros _. exists db, dm.
  split; [reflexivity|]. split; [reflexivity|].
  cbn. unfold changeset_at. rewrite lookup_insert_eq. reflexivity.
Qed.

Lemma apply_spec cmd drv b cs res (w w' : World G) :
  model_handle G _ (SubprocessRun cmd) w = (Returned res, w') ->
  parse_geodiff cmd = GApply drv b cs ->
  returncode res = 0 ->
  exists d c d',
    read_dataset G drv b w = Some d /\ changeset_at G (w_fs G w) cs = Some c
    /\ ge_apply G d c = Some d' /\ w' = write_dataset G drv b d' w.
Proof.
  cbn. unfold subprocess_run. intros H Hp. rewrite Hp in H.
  unfold geodiff_apply, read_changeset in H.
  destruct (read_dataset G drv b w) as [d|]; [|injection H as <- <-; discriminate].
  destruct (changeset_at G (w_fs G w) cs) as [c|]; [|injection H as <- <-; discriminate].
  destruct (ge_apply G d c) as [d'|] eqn:Ha; [|injection H as <- <-; discriminate].
  injection H as <- <-. intros _. exists d, c, d'. auto.
Qed.

Lemma push_project_spec mc dir u (w w' : World G) :
  model_handle G _ (McPushProject mc dir) w = (Returned u, w') ->
  exists md tracked files,
    read_meta G dir w' = Some (md, tracked)
    /\ latest G (md_name md) w' = Some (md_version md, files).
Proof.
  cbn. unfold mc_push_project, with_server.
  destruct (w_requests G w) as [|n]; [discriminate|].
  destruct (read_meta G dir (set_requests G n w)) as [[md tracked]|] eqn:Hm; [|discriminate].
  destruct (w_projects G (set_requests G n w) !! md_name md) as [[|[v0 files0] hist]|] eqn:Hp;
    try discriminate.
  case_bool_decide as Hv; [discriminate|].
  destruct (negb _).
  - intros H; injection H as _ <-. exists md, tracked, files0.
    split; [exact Hm|]. unfold latest. rewrite Hp, Hv. reflexivity.
  - intros H; injection H as _ <-.
    eexists {| md_name := md_name md; md_version := _ |}, _, _.
    split.
    + unfold read_meta, checkout. cbn. rewrite lookup_insert_eq. reflexivity.
    + unfold latest. cbn. rewrite lookup_insert_eq. reflexivity.
Qed.

Lemma metadata_spec mp md (w w' : World G) :
  model_handle G _ (MpMetadata mp) w = (Returned md, w') ->
  w' = w /\ exists tracked, read_meta G (mp_dir mp) w = Some (md, tracked).
Proof.
  cbn. unfold mp_metadata.
  destruct (read_meta G (mp_dir mp) w) as [[md' tracked]|]; [|discriminate].
  intros H; injection H as <- <-. eauto.
Qed.

Lemma project_new_spec dir mp (w w' : World G) :
  model_handle G _ (MerginProjectNew dir) w = (Returned mp, w') ->
  w' = w /\ mp_dir mp = dir.
Proof.
  cbn. unfold mergin_project_new.
  destruct (read_meta G dir w); [|discriminate].
  intros H; injection H as <- <-. auto.
Qed.

Lemma comment_spec conn schema text u (w w' : World G) :
  model_handle G _ (SqlCommentOnSchema conn schema text) w = (Returned u, w') ->
  w' = set_comments G (<[schema := text]> (w_comments G w)) w.
Proof.
  cbn. unfold sql_comment_on_schema.
  destruct (w_schemas G w !! schema); [|discriminate].
  intros H; injection H as _ <-. reflexivity.
Qed.

Lemma returncode_zero (res : CompletedProcess) :
  bool_decide (returncode res ≠ 0) = false -> returncode res = 0.
Proof. intros H%bool_decide_eq_false. lia. Qed.

Lemma getsize_spec p sz (w w' : World G) :
  model_handle G _ (OsPathGetsize p) w = (Returned sz, w') ->
  w' = w /\ exists f, w_fs G w !! p = Some f /\ sz = file_size G f.
Proof.
  cbn. unfold os_path_getsize.
  destruct (w_fs G w !! p) as [f|]; [|discriminate].
  intros H; injection H as <- <-. eauto.
Qed.

End ChangesetFacts.

(** Symbolic execution in the model, keeping the answer of each call. *)
Ltac model_step G :=
  run_simpl;
  match goal with
  | |- context [env_handle (ModelEnv G) ?X ?c ?s] =>
      let r := fresh "r" in let s' := fresh "s" in let H := fresh "Hstep" in
      destruct (env_handle (ModelEnv G) X c s) as [r s'] eqn:H; destruct r
  end; run_simpl.

Ltac model_all G :=
  repeat (first [model_step G | run_branch (ModelEnv G)]; try solve [intros ?; discriminate]).

Section PushConvergence.
Context (G : DiffEngine).

(** C7. For every push that completes from a state in which the
    changeset from the [base] schema to the [modified] schema is not
    empty (the diff engine applying the changeset it computes from [b]
    to [m] on [b] with result [m], the driver being one of the
    database): the working copy has been uploaded, the [base] schema
    equals the [modified] schema, which is what it was, and the version
    recorded in the comment of [base] is the version of the working
    directory, which is the latest version of the project on the
    server. *)
Theorem push_convergence (config : Config) (conn_cfg : ConnCfg) (mc : MerginClientObj)
    (w : World G) (b m : Dataset G) :
  driver conn_cfg <> "sqlite" ->
  ge_apply G b (ge_diff G b m) = Some m ->
  w_schemas G w !! base conn_cfg = Some b ->
  w_schemas G w !! modified conn_cfg = Some m ->
  ge_size G (ge_diff G b m) <> 0 ->
  let r := run (ModelEnv G) (push config conn_cfg mc) w in
  outcome r = Done tt ->
  existsb uploaded (trace r) = true
  /\ w_schemas G (final r) !! base conn_cfg = Some m
  /\ w_schemas G (final r) !! modified conn_cfg = Some m
  /\ exists md tracked files,
       read_meta G (os_path_join (working_dir config) (project_name_of conn_cfg)) (final r)
         = Some (md, tracked)
       /\ latest G (md_name md) (final r) = Some (md_version md, files)
       /\ w_comments G (final r) !! base conn_cfg
          = Some (json_dumps [("name", mergin_project conn_cfg);
                              ("version", md_version md)]).
Proof.
  intros Hdrv Happly Hb Hm Hne. cbv zeta. unfold_dbsync. unfold project_name_of.
  model_all G.
  all: intros _.
  all: repeat match goal with
       | H : env_handle (ModelEnv G) ?X ?c ?s = (?r, ?s') |- _ =>
           let F1 := fresh "Fup" in let F2 := fresh "Fdb" in let F3 := fresh "Fcs" in
           destruct (model_frame G c s s' r H) as (F1 & F2 & F3);
           first [specialize (F2 eq_refl); destruct F2 as [? ?] | clear F2];
           first [specialize (F3 eq_refl) | clear F3];
           change (model_handle G X c s = (r, s')) in H;
           revert H
       end; intros.
  (* the changeset is the difference of the schemas as they were *)
  all: match goal with
       | H : model_handle _ _ (SubprocessRun (_ :: "diff" :: _)) ?s = (Returned ?res, _),
         H0 : bool_decide (returncode ?res ≠ 0) = false |- _ =>
           destruct (diff_spec G _ _ _ _ _ _ _ _ H eq_refl Hdrv (returncode_zero _ H0))
             as (db & dm & Hdb & Hdm & Hcs);
           assert (db = b) by congruence; assert (dm = m) by congruence; subst db dm;
           assert (w_schemas G s = w_schemas G w) as Hpre by congruence
       end.
  all: match goal with
       | H : model_handle _ _ (OsPathGetsize _) _ = _ |- _ =>
           destruct (getsize_spec G _ _ _ _ H) as (-> & f & Hf & ->);
           unfold changeset_at in Hcs; rewrite Hf in Hcs;
           destruct f; try discriminate; injection Hcs as ->; cbn [file_size] in *
       end.
  all: try (exfalso; match goal with
            | H : bool_decide (_ = 0) = true |- _ => apply bool_decide_eq_true in H; auto
            end; fail).
  (* the upload, and the version read back from the working directory *)
  all: match goal with
       | H : model_handle _ _ (McPushProject _ _) _ = (Returned _, _) |- _ =>
           destruct (push_project_spec G _ _ _ _ _ H) as (md & tracked & files & Hmeta & Hlatest)
       end.
  all: match goal with
       | H : model_handle _ _ (MerginProjectNew _) ?s = (Returned ?mp, _),
         H0 : model_handle _ _ (MpMetadata ?mp) _ = (Returned ?v, _),
         H1 : model_handle _ _ (McPushProject _ _) _ = (_, ?s) |- _ =>
           destruct (project_new_spec G _ _ _ _ H) as (-> & Hdir);
           destruct (metadata_spec G _ _ _ _ H0) as (-> & tracked' & Hmeta');
           rewrite Hdir, Hmeta in Hmeta'; injection Hmeta' as <- <-
       end.
  (* the changeset applied to the base schema *)
  all: match goal with
       | H : model_handle _ _ (SubprocessRun [_; "apply"; _; driver _; _; _; _]) ?s
             = (Returned ?res, _),
         H0 : bool_decide (returncode ?res ≠ 0) = false |- _ =>
           destruct (apply_spec G _ _ _ _ _ _ _ H eq_refl (returncode_zero _ H0))
             as (d & c & d' & Hd & Hc & Hd' & ->);
           assert (w_schemas G s = w_schemas G w) as Hpost by congruence
       end.
  all: repeat match goal with H : changesets_kept _ ?fs ?fs |- _ => clear H end.
  all: match goal with
       | H : w_fs G ?s1 !! _ = Some (FChangeset _ _),
         H0 : changeset_at G (w_fs G ?s2) _ = Some _ |- _ =>
           assert (changesets_kept G (w_fs G s1) (w_fs G s2)) as Hkept
             by (repeat first [eassumption | eapply kept_trans; [eassumption|]]);
           apply Hkept in H0; unfold changeset_at in H0; rewrite H in H0;
           injection H0 as <-
       end.
  all: unfold read_dataset in Hd; rewrite bool_decide_eq_false_2 in Hd by exact Hdrv.
  all: match type of Hd with (if ?u then _ else _) = _ => destruct u; [|discriminate] end.
  all: rewrite Hpost, Hb in Hd; injection Hd as <-.
  all: rewrite Happly in Hd'; injection Hd' as <-.
  (* the comment *)
  all: match goal with
       | H : model_handle _ _ (SqlCommentOnSchema _ _ _) _ = (Returned _, _) |- _ =>
           rewrite (comment_spec G _ _ _ _ _ _ H)
       end.
  all: unfold write_dataset; rewrite bool_decide_eq_false_2 by exact Hdrv.
  all: cbn [default w_schemas w_comments w_fs w_projects set_comments set_schemas
            read_meta latest].
  all: split; [reflexivity|].
  all: split; [apply lookup_insert_eq|].
  all: split;
    [destruct (decide (base conn_cfg = modified conn_cfg)) as [e|n];
     [rewrite <- e; apply lookup_insert_eq
     |rewrite lookup_insert_ne by exact n; rewrite Hpost; exact Hm]|].
  all: exists md, tracked, files.
  all: split; [exact Hmeta|]. all: split; [exact Hlatest|].
  all: apply lookup_insert_eq.
Qed.
End PushConvergence.

Lemma push_convergence_witness :
  let r := run (ModelEnv (toy false)) (push config0 conn0 mc0) (world_db_edit 100) in
  outcome r = Done tt
  /\ existsb uploaded (trace r) = true
  /\ w_schemas _ (final r) !! "mergin_base" = Some rows2
  /\ w_schemas _ (final r) !! "mergin_main" = Some rows2
  /\ exists md tracked files,
       read_meta _ work_dir0 (final r) = Some (md, tracked)
       /\ latest _ (md_name md) (final r) = Some (md_version md, files)
       /\ w_comments _ (final r) !! "mergin_base"
          = Some (json_dumps [("name", "john/dbsync"); ("version", md_version md)]).
Proof.
  split; [vm_compute; reflexivity|].
  apply (push_convergence (toy false) config0 conn0 mc0 (world_db_edit 100) rows1 rows2).
  - discriminate.
  - vm_compute; reflexivity.
  - vm_compute; reflexivity.
  - vm_compute; reflexivity.
  - discriminate.
  - vm_compute; reflexivity.
Defined.

(** ** C1: the command [init-from-db] *)

(** C1. [dbsync_init] does not look at its [from_gpkg] argument: the
    command [init-from-db] initializes from the GeoPackage.  On a
    database that holds the [modified] schema only, with a project
    without files on the server and nothing downloaded, the command ends
    with the error of the other direction (the input GeoPackage is
    missing): no [base] schema, no upload, no comment.  [init] with
    [from_gpkg=False] on the same state copies [modified] to [base] and
    to the working file, uploads the file as version [v2] and records
    that version in the comment of [base]. *)
Theorem init_from_db_runs_from_gpkg :
  (forall config mc from_gpkg, dbsync_init config mc from_gpkg = dbsync_init config mc true)
  /\ (let r := run (ModelEnv (toy false))
                   (main config0 "1.0" ["dbsync"; "init-from-db"]) world_db_only in
      outcome r = Done tt
      /\ last (output r)
         = Some "Error: The input GPKG file does not exist: /tmp/working_project/dbsync/sync.gpkg"
      /\ w_schemas _ (final r) !! "mergin_base" = None
      /\ read_gpkg _ (work_path work_dir0 "sync.gpkg") (final r) = None
      /\ existsb uploaded (trace r) = false
      /\ comment_writes (trace r) = [])
  /\ (let r := run (ModelEnv (toy false)) (init config0 conn0 mc0 false) world_db_only in
      outcome r = Done tt
      /\ w_schemas _ (final r) !! "mergin_main" = Some rows2
      /\ w_schemas _ (final r) !! "mergin_base" = Some rows2
      /\ read_gpkg _ (work_path work_dir0 "sync.gpkg") (final r) = Some rows2
      /\ existsb uploaded (trace r) = true
      /\ latest _ "john/dbsync" (final r) = Some ("v2", [("sync.gpkg", rows2)])
      /\ comment_writes (trace r)
         = [("mergin_base", json_dumps [("name", "john/dbsync"); ("version", "v2")])]).
Proof.
  split; [reflexivity|].
  split; vm_compute; repeat split; reflexivity.
Qed.

(** * Further properties of [dbsync.py] *)

(** ** The command line: [main] *)

Section MainFacts.
Context (E : Env).

(** Whatever runs inside the [try] of [main], a [DbSyncError] ends as a
    printed line. *)
Lemma try_except_DbSyncError_caught (p : Prog unit) (h : string -> Prog unit)
    (s : env_state E) (msg : string) :
  (forall m s', outcome (run E (h m) s') <> Failed (DbSyncError msg)) ->
  outcome (run E (try_except p (except_DbSyncError h)) s) <> Failed (DbSyncError msg).
Proof.
  intros Hh. rewrite run_try_except.
  destruct (outcome (run E p s)) as [a|e] eqn:Hp; [rewrite Hp; discriminate|].
  destruct e as [m|k m]; cbn [except_DbSyncError].
  - cbn. apply Hh.
  - rewrite Hp. discriminate.
Qed.

(** X1. [main] never ends with a [DbSyncError]: whatever the arguments,
    the configuration and the answers of the collaborators, a
    [DbSyncError] raised by an operation is caught and reported; only
    exceptions of other kinds leave [main]. *)
Theorem main_reports_dbsync_errors (config : Config) (version : string)
    (argv : list string) (s : env_state E) (msg : string) :
  outcome (run E (main config version argv) s) <> Failed (DbSyncError msg).
Proof.
  unfold main. case_bool_decide; [discriminate|].
  run_step E; [|destruct k; run_simpl; try discriminate].
  cbn [negb]. apply try_except_DbSyncError_caught. intros; discriminate.
Qed.

(** X2. When the configuration does not validate, [main] prints the
    banner and the error, and ends normally: the validation is the only
    call, nothing is asked of the server, the database or the files. *)
Theorem main_config_error (config : Config) (version : string) (argv : list string)
    (s s' : env_state E) (msg : string) :
  (2 <= len argv)%Z ->
  env_handle E _ (ValidateConfig config) s = (Thrown ConfigError msg, s') ->
  let r := run E (main config version argv) s in
  outcome r = Done tt
  /\ final r = s'
  /\ trace r = [EvCall (ValidateConfig config) (Thrown ConfigError msg)]
  /\ output r = ["== Starting Mergin Maps DB Sync version " +:+ version +:+ " ==";
                 "Error: " +:+ msg].
Proof.
  intros Hlen Hv. cbv zeta. unfold main.
  rewrite bool_decide_eq_false_2 by lia.
  run_simpl. rewrite Hv. run_simpl. cbn [negb]. run_simpl. auto.
Qed.

(** X3. An unknown subcommand: every call of the run is one of the start
    of [main] (validation, password prompt, login), so the usage text
    comes only after the login; once logged in, [main] prints the usage
    text after its two first lines and ends normally. *)
Theorem main_unknown_command (config : Config) (version : string)
    (argv : list string) (cmd : string) (s : env_state E) :
  argv !! 1%nat = Some cmd ->
  known_command cmd = false ->
  let r := run E (main config version argv) s in
  forallb startup_call (trace r) = true
  /\ (existsb logged_in (trace r) = true ->
      outcome r = Done tt
      /\ output r = (["== Starting Mergin Maps DB Sync version " +:+ version +:+ " ==";
                      "Logging in to Mergin Maps..."]
                     ++ output (run E show_usage s))%list).
Proof.
  intros Hcmd Hk. cbv zeta.
  apply bool_decide_eq_false in Hk.
  assert (cmd <> "init-from-gpkg" /\ cmd <> "init-from-db" /\ cmd <> "status"
          /\ cmd <> "push" /\ cmd <> "pull") as (H1 & H2 & H3 & H4 & H5).
  { repeat split; intros ->; apply Hk; set_solver. }
  unfold main, create_mergin_client, _check_has_password, list_index, show_usage.
  rewrite Hcmd.
  case_bool_decide as Hlen.
  { exfalso. apply lookup_lt_Some in Hcmd. unfold len in Hlen. lia. }
  destruct (password (mergin config)) as [pw|] eqn:Hpw.
  all: run_all E.
  all: try match goal with
           | H : bool_decide (_ = _) = true |- _ =>
               apply bool_decide_eq_true in H; contradiction
           end.
  all: split; [reflexivity|].
  all: cbn; intros Hin; try discriminate; split; reflexivity.
Qed.

(** X4. A refused login ([LoginError] or [ClientError] from the client):
    [main] ends normally and no operation is started, the calls of the
    run being those of the start of [main]. *)
Theorem main_login_refused (config : Config) (version : string)
    (argv : list string) (s : env_state E) (k : ExtKind) (msg : string) :
  login_answer (trace (run E (main config version argv) s)) = Some (Thrown k msg) ->
  k = LoginError \/ k = ClientError ->
  let r := run E (main config version argv) s in
  outcome r = Done tt /\ forallb startup_call (trace r) = true.
Proof.
  cbv zeta. unfold login_answer, main, create_mergin_client, _check_has_password.
  case_bool_decide; [discriminate|].
  destruct (password (mergin config)) as [pw|].
  all: run_all E.
  all: cbn -[String.append]; try discriminate.
  all: intros [= <- <-] [Hk|Hk]; try discriminate Hk.
  all: split; reflexivity.
Qed.

(** ** The loops over the configured pairs *)

Lemma run_for_each_failed {A} (body : A -> Prog unit) (l : list A) (s : env_state E) e :
  outcome (run E (for_each l body) s) = Failed e ->
  exists pre x post,
    l = (pre ++ x :: post)%list
    /\ outcome (run E (for_each pre body) s) = Done tt
    /\ outcome (run E (body x) (final (run E (for_each pre body) s))) = Failed e
    /\ final (run E (for_each l body) s)
       = final (run E (body x) (final (run E (for_each pre body) s)))
    /\ trace (run E (for_each l body) s)
       = (trace (run E (for_each pre body) s)
          ++ trace (run E (body x) (final (run E (for_each pre body) s))))%list
    /\ output (run E (for_each l body) s)
       = (output (run E (for_each pre body) s)
          ++ output (run E (body x) (final (run E (for_each pre body) s))))%list.
Proof.
  revert s; induction l as [|x l IH]; intros s; cbn [for_each]; [discriminate|].
  rewrite run_bind.
  destruct (outcome (run E (body x) s)) as [[]|e'] eqn:Hx; cbn.
  - intros Hl. destruct (IH _ Hl) as (pre & y & post & -> & Hpre & Hy & Hf & Ht & Ho).
    exists (x :: pre), y, post. cbn [for_each app].
    rewrite run_bind, Hx. cbn. rewrite Hpre, Hf, Ht, Ho, !app_assoc.
    repeat split; first [assumption | reflexivity].
  - intros [= ->]. exists [], x, l. cbn. rewrite Hx. repeat split.
Qed.


End MainFacts.

Lemma main_config_error_witness :
  let r := run (ModelEnv (toy false)) (main config_no_dir "1.0" ["dbsync"; "status"])
               world_synced in
  outcome r = Done tt
  /\ final r = world_synced
  /\ trace r = [EvCall (ValidateConfig config_no_dir)
                       (Thrown ConfigError "Config error: Working directory is not set")]
  /\ output r = ["== Starting Mergin Maps DB Sync version " +:+ "1.0" +:+ " ==";
                 "Error: " +:+ "Config error: Working directory is not set"].
Proof.
  apply (main_config_error (ModelEnv (toy false)) config_no_dir "1.0" ["dbsync"; "status"]
           world_synced world_synced "Config error: Working directory is not set").
  - vm_compute; discriminate.
  - reflexivity.
Defined.

Lemma main_unknown_command_witness :
  let r := run (ModelEnv (toy false)) (main config0 "1.0" ["dbsync"; "sync"]) world_synced in
  forallb startup_call (trace r) = true
  /\ (existsb logged_in (trace r) = true ->
      outcome r = Done tt
      /\ output r = (["== Starting Mergin Maps DB Sync version " +:+ "1.0" +:+ " ==";
                      "Logging in to Mergin Maps..."]
                     ++ output (run (ModelEnv (toy false)) show_usage world_synced))%list).
Proof.
  apply (main_unknown_command (ModelEnv (toy false)) config0 "1.0" ["dbsync"; "sync"] "sync");
    reflexivity.
Defined.

Lemma main_login_refused_witness :
  let r := run (ModelEnv (toy false)) (main config0 "1.0" ["dbsync"; "status"])
               world_offline in
  outcome r = Done tt /\ forallb startup_call (trace r) = true.
Proof.
  apply (main_login_refused (ModelEnv (toy false)) config0 "1.0" ["dbsync"; "status"]
           world_offline ClientError "Connection refused").
  - vm_compute; reflexivity.
  - right; reflexivity.
Defined.


(** ** A project identifier without a namespace *)

Lemma split_slash_aux_no_slash (s cur : string) :
  has_slash s = false -> exists x, split_slash_aux s cur = [x].
Proof.
  unfold has_slash. revert cur; induction s as [|c s IH]; intros cur; cbn.
  - eauto.
  - destruct (Ascii.eqb c "/"); [discriminate|]. cbn. apply IH.
Qed.

(** X6. When the project identifier of a pair has no slash, every
    operation fails on it, right after its first line and before any
    call, with the [IndexError] of [split("/")[1]]: not a [DbSyncError],
    so [main] does not report it. *)
Theorem project_without_slash (E : Env) (config : Config) (op : Op) (conn_cfg : ConnCfg)
    (mc : MerginClientObj) (s : env_state E) :
  has_slash (mergin_project conn_cfg) = false ->
  let r := run E (run_op config op conn_cfg mc) s in
  outcome r = Failed (Foreign IndexError "list index out of range")
  /\ final r = s /\ trace r = []
  /\ output r = ["Processing Mergin Maps project '" +:+ mergin_project conn_cfg +:+ "'"].
Proof.
  intros Hs. destruct (split_slash_aux_no_slash _ "" Hs) as [x Hx].
  cbv zeta.
  destruct op; cbn [run_op]; unfold init, pull, push, status, project_short_name,
    list_index, split_slash; rewrite Hx; cbn; auto.
Qed.

Lemma project_without_slash_witness :
  let r := run (ModelEnv (toy false)) (run_op config0 OpPush conn_no_slash mc0)
               world_synced in
  outcome r = Failed (Foreign IndexError "list index out of range")
  /\ final r = world_synced /\ trace r = []
  /\ output r = ["Processing Mergin Maps project '" +:+ "dbsync" +:+ "'"].
Proof.
  apply (project_without_slash (ModelEnv (toy false)) config0 OpPush conn_no_slash).
  reflexivity.
Defined.

(** ** What the operations change *)

Lemma local_not_changing ev : local_ev ev = true -> negb (changes_data ev) = true.
Proof.
  destruct ev as [X c r]; destruct c; cbn; try discriminate; try reflexivity.
  unfold is_dataset_write. destruct (parse_geodiff cmd); cbn; try discriminate; reflexivity.
Qed.

Lemma local_not_download ev : local_ev ev = true -> download_failed ev = false.
Proof. destruct ev as [X c r]; destruct c; cbn; try discriminate; reflexivity. Qed.

Lemma local_not_getsize ev : local_ev ev = true -> ev_getsize ev = None.
Proof. destruct ev as [X c r]; destruct c; cbn; try discriminate; reflexivity. Qed.

Lemma local_not_stored ev : local_ev ev = true -> ev_comment_stored ev = None.
Proof. destruct ev as [X c r]; destruct c; cbn; try discriminate; reflexivity. Qed.

Lemma local_not_downloaded ev : local_ev ev = true -> downloaded ev = false.
Proof. destruct ev as [X c r]; destruct c; cbn; try discriminate; reflexivity. Qed.

Lemma local_not_uploaded ev : local_ev ev = true -> uploaded ev = false.
Proof. destruct ev as [X c r]; destruct c; cbn; try discriminate; reflexivity. Qed.


Lemma pull_download_failure_trace (E : Env) (config : Config) (conn_cfg : ConnCfg)
    (mc : MerginClientObj) (s : env_state E) :
  let r := run E (pull config conn_cfg mc) s in
  existsb download_failed (trace r) = true ->
  (exists e, outcome r = Failed e)
  /\ forallb (fun ev => negb (mutates_db ev)) (trace r) = true
  /\ dataset_writes (trace r) = [].
Proof.
  cbv zeta. unfold_dbsync2.
  run_all2 E.
  all: unfold dataset_writes.
  all: repeat (cbn -[String.append os_path_join];
               rewrite ?app_nil_r;
               try rewrite existsb_local_app by (exact local_not_download || assumption);
               try rewrite existsb_local by (exact local_not_download || assumption);
               try rewrite forallb_local_app by (exact local_not_mutating || assumption);
               try rewrite forallb_local by (exact local_not_mutating || assumption);
               try rewrite omap_local_app by (first [exact local_not_write | assumption]);
               try rewrite omap_local by (first [exact local_not_write | assumption])).
  all: try discriminate.
  all: intros _; split; [eexists; reflexivity|split; reflexivity].
Qed.

(** X8. For every pull in which the download of the new version fails:
    the pull fails, geodiff has written to no dataset, and the schemas
    and their comments are what they were before the pull. *)
Theorem pull_download_failure_keeps_db (G : DiffEngine) (config : Config)
    (conn_cfg : ConnCfg) (mc : MerginClientObj) (w : World G) :
  let r := run (ModelEnv G) (pull config conn_cfg mc) w in
  existsb download_failed (trace r) = true ->
  (exists e, outcome r = Failed e)
  /\ dataset_writes (trace r) = []
  /\ w_schemas G (final r) = w_schemas G w
  /\ w_comments G (final r) = w_comments G w.
Proof.
  intros r Hd.
  destruct (pull_download_failure_trace (ModelEnv G) config conn_cfg mc w Hd)
    as (Hf & Hn & Hw).
  split; [exact Hf|]. split; [exact Hw|].
  apply model_run_frame_db. exact Hn.
Qed.

Lemma pull_download_failure_keeps_db_witness :
  let r := run (ModelEnv (toy false)) (pull config0 conn0 mc0) world_behind_offline in
  existsb download_failed (trace r) = true
  /\ (exists e, outcome r = Failed e)
  /\ dataset_writes (trace r) = []
  /\ w_schemas _ (final r) = w_schemas _ world_behind_offline
  /\ w_comments _ (final r) = w_comments _ world_behind_offline.
Proof.
  split; [vm_compute; reflexivity|].
  apply (pull_download_failure_keeps_db (toy false) config0 conn0 mc0 world_behind_offline).
  vm_compute; reflexivity.
Defined.



(** X10. [init], in either direction, on a database where both schemas
    exist: no call of the run writes to the database (no comment, no
    geodiff write to a schema), and geodiff writes to no dataset at all;
    the schemas are only compared with the GeoPackage. *)
Theorem init_existing_schemas_no_write (E : Env) (config : Config) (conn_cfg : ConnCfg)
    (mc : MerginClientObj) (from_gpkg : bool) (s : env_state E) :
  let r := run E (init config conn_cfg mc from_gpkg) s in
  schemas_found (trace r) = [true; true] ->
  forallb (fun ev => negb (mutates_db ev)) (trace r) = true
  /\ dataset_writes (trace r) = [].
Proof.
  cbv zeta.
  unfold init, init_working_dir, init_from_gpkg, init_from_db, db_proj_info_version,
    project_short_name, _check_has_working_dir,
    _check_schema_exists, _get_project_version, _get_db_project_comment.
  run_all2 E.
  all: unfold schemas_found, dataset_writes.
  all: cbn -[String.append os_path_join run]; try discriminate.
  all: rewrite ?app_nil_r.
  all: intros Hs; simplify_eq.
  all: repeat match goal with
              | H : (_ && _)%bool = _ |- _ => cbn in H; try discriminate H; clear H
              end.
  all: try discriminate.
  all: repeat (cbn -[String.append os_path_join];
               rewrite ?app_nil_r;
               try rewrite forallb_local_app by (exact local_not_mutating || assumption);
               try rewrite forallb_local by (exact local_not_mutating || assumption);
               try rewrite omap_local_app by (first [exact local_not_write | assumption]);
               try rewrite omap_local by (first [exact local_not_write | assumption])).
  all: split; reflexivity.
Qed.

Lemma init_existing_schemas_no_write_witness :
  let r := run (ModelEnv (toy false)) (init config0 conn0 mc0 true) (world_db_edit 100) in
  forallb (fun ev => negb (mutates_db ev)) (trace r) = true
  /\ dataset_writes (trace r) = [].
Proof.
  apply (init_existing_schemas_no_write (ModelEnv (toy false)) config0 conn0 mc0 true
           (world_db_edit 100)).
  vm_compute; reflexivity.
Defined.

(** ** The version recorded in the comment of [base] *)

Ltac comment_leaves :=
  unfold comments_stored, last_version, version_comment;
  repeat (cbn -[String.append os_path_join];
          rewrite ?app_nil_r;
          try rewrite (existsb_local_app downloaded)
            by (exact local_not_downloaded || assumption);
          try rewrite (existsb_local downloaded)
            by (exact local_not_downloaded || assumption);
          try rewrite (existsb_local_app uploaded)
            by (exact local_not_uploaded || assumption);
          try rewrite (existsb_local uploaded)
            by (exact local_not_uploaded || assumption);
          try rewrite (omap_local_app ev_comment_stored)
            by (exact local_not_stored || assumption);
          try rewrite (omap_local ev_comment_stored)
            by (exact local_not_stored || assumption);
          try rewrite (omap_local_app ev_metadata)
            by (exact local_not_metadata || assumption);
          try rewrite (omap_local ev_metadata)
            by (exact local_not_metadata || assumption)).

Lemma pull_comment (E : Env) (config : Config) (conn_cfg : ConnCfg)
    (mc : MerginClientObj) (s : env_state E) :
  let r := run E (pull config conn_cfg mc) s in
  match outcome r with
  | Done _ =>
      if existsb downloaded (trace r)
      then exists v, last_version (trace r) = Some v
                     /\ comments_stored (trace r) = [version_comment conn_cfg v]
      else comments_stored (trace r) = []
  | Failed _ => comments_stored (trace r) = []
  end.
Proof.
  cbv zeta. unfold_dbsync2.
  run_all2 E.
  all: comment_leaves.
  all: try reflexivity.
  all: eexists; split; reflexivity.
Qed.

Lemma push_comment (E : Env) (config : Config) (conn_cfg : ConnCfg)
    (mc : MerginClientObj) (s : env_state E) :
  let r := run E (push config conn_cfg mc) s in
  match outcome r with
  | Done _ =>
      if existsb uploaded (trace r)
      then exists v, last_version (trace r) = Some v
                     /\ comments_stored (trace r) = [version_comment conn_cfg v]
      else comments_stored (trace r) = []
  | Failed _ => comments_stored (trace r) = []
  end.
Proof.
  cbv zeta. unfold_dbsync2.
  run_all2 E.
  all: comment_leaves.
  all: try reflexivity.
  all: eexists; split; reflexivity.
Qed.

(** X11. [pull] and [push] store the comment of [base] as their last
    step only: a run that fails has stored no comment; a run that ends
    normally without the transfer (nothing to pull, nothing to push) has
    stored none either; a run that ends normally after the download (the
    upload) has stored exactly one, on [base], with the project
    identifier of the pair and the version last read from the working
    directory. *)
Theorem version_comment_on_success (E : Env) (config : Config) (conn_cfg : ConnCfg)
    (mc : MerginClientObj) (s : env_state E) :
  (let r := run E (pull config conn_cfg mc) s in
   match outcome r with
   | Done _ =>
       if existsb downloaded (trace r)
       then exists v, last_version (trace r) = Some v
                      /\ comments_stored (trace r) = [version_comment conn_cfg v]
       else comments_stored (trace r) = []
   | Failed _ => comments_stored (trace r) = []
   end)
  /\ (let r := run E (push config conn_cfg mc) s in
      match outcome r with
      | Done _ =>
          if existsb uploaded (trace r)
          then exists v, last_version (trace r) = Some v
                         /\ comments_stored (trace r) = [version_comment conn_cfg v]
          else comments_stored (trace r) = []
      | Failed _ => comments_stored (trace r) = []
      end).
Proof.
  split; [apply pull_comment|apply push_comment].
Qed.

(** On concrete worlds: a pull and a push that transfer. *)
Example pull_records_version :
  comments_stored (trace (run (ModelEnv (toy false)) (pull config0 conn0 mc0)
                              (world_behind rows1)))
  = [("mergin_base", json_dumps [("name", "john/dbsync"); ("version", "v2")])].
Proof. vm_compute. reflexivity. Qed.

Example push_records_version :
  comments_stored (trace (run (ModelEnv (toy false)) (push config0 conn0 mc0)
                              (world_db_edit 100)))
  = [("mergin_base", json_dumps [("name", "john/dbsync"); ("version", "v2")])].
Proof. vm_compute. reflexivity. Qed.

Section CommentRoundTrip.
Context (G : DiffEngine).

(** X12. What [_set_db_project_comment] stores on an existing schema,
    [_get_db_project_comment] reads back: the name and the version, and
    the error when one was given that is not the empty string; the
    schemas and the files are left as they were. *)
Theorem comment_round_trip (conn : Connection)
    (schema project_name version : string) (error : option string) (w : World G) :
  is_Some (w_schemas G w !! schema) ->
  let r := run (ModelEnv G)
               (_set_db_project_comment conn schema project_name version error ;;
                _get_db_project_comment conn schema) w in
  outcome r
  = Done (Some ([("name", project_name); ("version", version)] ++ error_entry error)%list)
  /\ w_schemas G (final r) = w_schemas G w
  /\ w_fs G (final r) = w_fs G w.
Proof.
  intros [d Hd]. cbv zeta.
  unfold _set_db_project_comment, _get_db_project_comment, error_entry.
  cbn [run bind call logged outcome final env_handle ModelEnv model_handle fst snd].
  unfold sql_comment_on_schema. rewrite Hd.
  cbn [run bind call logged outcome final env_handle ModelEnv model_handle fst snd].
  unfold sql_obj_description. cbn [w_schemas set_comments w_comments]. rewrite Hd.
  rewrite lookup_insert_eq.
  destruct error as [err|]; [destruct (str_truthy err)|]; cbn; auto.
Qed.

End CommentRoundTrip.

Lemma comment_round_trip_witness :
  let r := run (ModelEnv (toy false))
               (_set_db_project_comment {| conn_dsn := "" |} "mergin_base" "john/dbsync" "v1"
                                        (Some init_error_comment) ;;
                _get_db_project_comment {| conn_dsn := "" |} "mergin_base") world_synced in
  outcome r
  = Done (Some [("name", "john/dbsync"); ("version", "v1"); ("error", init_error_comment)])
  /\ w_schemas _ (final r) = w_schemas _ world_synced
  /\ w_fs _ (final r) = w_fs _ world_synced.
Proof.
  apply (comment_round_trip (toy false) {| conn_dsn := "" |} "mergin_base"
           "john/dbsync" "v1" (Some init_error_comment) world_synced).
  vm_compute. eauto.
Defined.

(** ** Comparing two datasets *)

